(** * The voice-agent pipeline example: thread identifiers, observers, startup

    A shallow embedding of [python/example/pipeline.py].  The script derives a
    conversation thread identifier from a participant's session id
    ([get_thread_id]), registers three observers on an SDK session and hands
    control to the session.  Everything the script calls in the Python
    standard library ([uuid], [hashlib.sha1], the UTF-8 codec, [%]-formatting)
    is embedded here as executable functions; everything it calls in the
    real-time SDK is an external call of a small program monad. *)

From Stdlib Require Import ZArith QArith String Ascii List Bool Lia.
From Stdlib Require Import Strings.Byte.
Import ListNotations.
Local Open Scope Z_scope.

(** ** Python values *)

(** A Python [bytes] object. *)
Definition bytes := list byte.

(** A Python [str] is a sequence of Unicode code points; the interpreter
    admits every code point up to U+10FFFF, surrogates included. *)
Definition str := list Z.

Definition MAX_UNICODE : Z := 0x10FFFF.

Definition code_point (c : Z) : Prop := 0 <= c <= MAX_UNICODE.

Definition well_formed (s : str) : Prop := Forall code_point s.

Definition Z_of_byte (b : byte) : Z := Z.of_N (Byte.to_N b).

Definition byte_of_Z (z : Z) : byte :=
  match Byte.of_N (Z.to_N (z mod 256)) with
  | Some b => b
  | None => x00
  end.

(** A source literal (ASCII text) as a Python [str]. *)
Fixpoint lit (s : string) : str :=
  match s with
  | EmptyString => []
  | String a s' => Z.of_N (N_of_ascii a) :: lit s'
  end.

(** [int.from_bytes(bs)], big endian. *)
Definition int_from_bytes (bs : bytes) : Z :=
  fold_left (fun acc b => acc * 256 + Z_of_byte b) bs 0.

(** [n.to_bytes(len)], big endian; the callers below pass [n] in range. *)
Fixpoint int_to_bytes (len : nat) (n : Z) : bytes :=
  match len with
  | O => []
  | S len' => int_to_bytes len' (n / 256) ++ [byte_of_Z n]
  end.

(** ** SHA-1 ([hashlib.sha1], FIPS 180-4) on 32-bit words held in [Z] *)

Module SHA1.

Definition mask32 : Z := 0xFFFFFFFF.

Definition wrap (x : Z) : Z := Z.land x mask32.

Definition add32 (x y : Z) : Z := wrap (x + y).

Definition rotl (n x : Z) : Z :=
  wrap (Z.lor (Z.shiftl x n) (Z.shiftr x (32 - n))).

Definition not32 (x : Z) : Z := Z.lxor x mask32.

(** Message padding: a [0x80] byte, zeros up to 56 mod 64, then the bit
    length on 64 bits. *)
Definition pad (msg : bytes) : bytes :=
  let len := Z.of_nat (length msg) in
  let zeros := Z.to_nat ((55 - len) mod 64) in
  msg ++ [x80] ++ repeat x00 zeros ++ int_to_bytes 8 (8 * len).

Fixpoint words (fuel : nat) (bs : bytes) : list Z :=
  match fuel, bs with
  | S fuel', b0 :: b1 :: b2 :: b3 :: rest =>
      int_from_bytes [b0; b1; b2; b3] :: words fuel' rest
  | _, _ => []
  end.

Fixpoint blocks (fuel : nat) (ws : list Z) : list (list Z) :=
  match fuel, ws with
  | S fuel', _ :: _ => firstn 16 ws :: blocks fuel' (skipn 16 ws)
  | _, _ => []
  end.

(** The message schedule, most recent word first. *)
Fixpoint extend (n : nat) (r : list Z) : list Z :=
  match n with
  | O => r
  | S n' =>
      let w := rotl 1 (Z.lxor (Z.lxor (Z.lxor (nth 2 r 0) (nth 7 r 0))
                                      (nth 13 r 0)) (nth 15 r 0)) in
      extend n' (w :: r)
  end.

Definition schedule (block : list Z) : list Z :=
  rev (extend 64 (rev block)).

Definition state : Type := Z * Z * Z * Z * Z.

Definition f_k (t : nat) (b c d : Z) : Z * Z :=
  if (t <? 20)%nat then
    (Z.lor (Z.land b c) (Z.land (not32 b) d), 0x5A827999)
  else if (t <? 40)%nat then
    (Z.lxor (Z.lxor b c) d, 0x6ED9EBA1)
  else if (t <? 60)%nat then
    (Z.lor (Z.lor (Z.land b c) (Z.land b d)) (Z.land c d), 0x8F1BBCDC)
  else
    (Z.lxor (Z.lxor b c) d, 0xCA62C1D6).

Definition round (s : state) (tw : nat * Z) : state :=
  let '(a, b, c, d, e) := s in
  let '(t, w) := tw in
  let '(f, k) := f_k t b c d in
  let temp := add32 (add32 (add32 (add32 (rotl 5 a) f) e) k) w in
  (temp, a, rotl 30 b, c, d).

Definition compress (h : state) (block : list Z) : state :=
  let '(h0, h1, h2, h3, h4) := h in
  let '(a, b, c, d, e) :=
    fold_left round (combine (seq 0 80) (schedule block)) h in
  (add32 h0 a, add32 h1 b, add32 h2 c, add32 h3 d, add32 h4 e).

Definition init : state :=
  (0x67452301, 0xEFCDAB89, 0x98BADCFE, 0x10325476, 0xC3D2E1F0).

Definition digest (msg : bytes) : bytes :=
  let p := pad msg in
  let ws := words (length p) p in
  let '(h0, h1, h2, h3, h4) :=
    fold_left compress (blocks (length ws) ws) init in
  int_to_bytes 4 h0 ++ int_to_bytes 4 h1 ++ int_to_bytes 4 h2
    ++ int_to_bytes 4 h3 ++ int_to_bytes 4 h4.

End SHA1.

(** ** Exceptions and results *)

Inductive exn : Type :=
| UnicodeEncodeError (position : nat) (code : Z)
| ValueError (message : string)
| KeyError (key : string)
| SdkError (what : string).

Inductive outcome (A : Type) : Type :=
| Returned (a : A)
| Raised (e : exn).
Arguments Returned {A} a.
Arguments Raised {A} e.

Definition outcome_bind {A B} (o : outcome A) (f : A -> outcome B) : outcome B :=
  match o with
  | Returned a => f a
  | Raised e => Raised e
  end.

(** ** The strict UTF-8 codec: [bytes(name, "utf-8")] *)

Definition is_surrogate (ch : Z) : bool := (0xD800 <=? ch) && (ch <=? 0xDFFF).

Definition continuation (x : Z) : byte := byte_of_Z (Z.lor 0x80 (Z.land x 0x3f)).

Definition utf8_encode_char (ch : Z) : list byte :=
  if ch <? 0x80 then
    [byte_of_Z ch]
  else if ch <? 0x800 then
    [byte_of_Z (Z.lor 0xc0 (Z.shiftr ch 6)); continuation ch]
  else if ch <? 0x10000 then
    [byte_of_Z (Z.lor 0xe0 (Z.shiftr ch 12)); continuation (Z.shiftr ch 6);
     continuation ch]
  else
    [byte_of_Z (Z.lor 0xf0 (Z.shiftr ch 18)); continuation (Z.shiftr ch 12);
     continuation (Z.shiftr ch 6); continuation ch].

(** The encoder walks the string; a surrogate code point stops it with
    [UnicodeEncodeError] ("surrogates not allowed") at its position. *)
Fixpoint utf8_encode_from (i : nat) (s : str) : outcome bytes :=
  match s with
  | [] => Returned []
  | ch :: s' =>
      if is_surrogate ch then Raised (UnicodeEncodeError i ch)
      else outcome_bind (utf8_encode_from (S i) s')
             (fun rest => Returned (utf8_encode_char ch ++ rest))
  end.

Definition utf8_encode (s : str) : outcome bytes := utf8_encode_from 0 s.

(** ** Text helpers of the [UUID] class: [%032x], [replace], [strip], [int(_, 16)] *)

Definition hex_digit (d : Z) : Z := if d <? 10 then 48 + d else 87 + d.

Fixpoint hex_digits (fuel : nat) (n : Z) (acc : str) : str :=
  match fuel with
  | O => acc
  | S fuel' =>
      let acc' := hex_digit (n mod 16) :: acc in
      if n / 16 =? 0 then acc' else hex_digits fuel' (n / 16) acc'
  end.

(** ['%x' % n] for [0 <= n]. *)
Definition hex_of (n : Z) : str := hex_digits (S (Z.to_nat (Z.log2 n))) n [].

Definition zero_pad (width : nat) (s : str) : str :=
  repeat 48 (width - length s) ++ s.

(** ['%032x' % n]: the sign, if any, counts in the width. *)
Definition format_032x (n : Z) : str :=
  if n <? 0 then 45 :: zero_pad 31 (hex_of (- n)) else zero_pad 32 (hex_of n).

Fixpoint starts_with (old s : str) : bool :=
  match old, s with
  | [], _ => true
  | o :: old', c :: s' => (o =? c) && starts_with old' s'
  | _ :: _, [] => false
  end.

(** [s.replace(old, '')] for a non-empty [old]: occurrences are removed left
    to right without overlap; [skip] counts what is left of the occurrence
    being removed. *)
Fixpoint remove_from (old : str) (skip : nat) (s : str) : str :=
  match s with
  | [] => []
  | c :: s' =>
      match skip with
      | S k => remove_from old k s'
      | O =>
          if starts_with old s then remove_from old (length old - 1) s'
          else c :: remove_from old 0 s'
      end
  end.

Definition remove (old s : str) : str := remove_from old 0 s.

Fixpoint lstrip (chars s : str) : str :=
  match s with
  | c :: s' => if existsb (Z.eqb c) chars then lstrip chars s' else s
  | [] => []
  end.

Definition strip (chars s : str) : str :=
  rev (lstrip chars (rev (lstrip chars s))).

Definition hex_value (c : Z) : option Z :=
  if (48 <=? c) && (c <=? 57) then Some (c - 48)
  else if (97 <=? c) && (c <=? 102) then Some (c - 87)
  else if (65 <=? c) && (c <=? 70) then Some (c - 55)
  else None.

(** [int(s, 16)] on a string of hexadecimal digits; any other character is a
    [ValueError] here (the sign, prefix and underscore forms that [int] also
    accepts do not occur in the text this script parses). *)
Fixpoint int_16_from (acc : Z) (s : str) : outcome Z :=
  match s with
  | [] => Returned acc
  | c :: s' =>
      match hex_value c with
      | Some d => int_16_from (acc * 16 + d) s'
      | None => Raised (ValueError "invalid literal for int() with base 16")
      end
  end.

Definition int_16 (s : str) : outcome Z :=
  match s with
  | [] => Raised (ValueError "invalid literal for int() with base 16")
  | _ => int_16_from 0 s
  end.

(** ** The [uuid] module *)

Record UUID : Type := mkUUID { int : Z }.

(** The [version] branch of [UUID.__init__]: variant and version bits. *)
Definition set_version (version : Z) (i : Z) : outcome Z :=
  if negb ((1 <=? version) && (version <=? 5)) then
    Raised (ValueError "illegal version number")
  else
    let i := Z.land i (Z.lnot (Z.shiftl 0xc000 48)) in
    let i := Z.lor i (Z.shiftl 0x8000 48) in
    let i := Z.land i (Z.lnot (Z.shiftl 0xf000 64)) in
    let i := Z.lor i (Z.shiftl version 76) in
    Returned i.

Definition check_int (i : Z) : outcome Z :=
  if negb ((0 <=? i) && (i <? Z.shiftl 1 128)) then
    Raised (ValueError "int is out of range (need a 128-bit value)")
  else Returned i.

(** [UUID(hex)]. *)
Definition UUID_hex (hex : str) : outcome UUID :=
  let hex := remove (lit "uuid:") (remove (lit "urn:") hex) in
  let hex := remove (lit "-") (strip (lit "{}") hex) in
  if negb (length hex =? 32)%nat then
    Raised (ValueError "badly formed hexadecimal UUID string")
  else
    outcome_bind (int_16 hex) (fun i =>
    outcome_bind (check_int i) (fun i =>
    Returned (mkUUID i))).

(** [UUID(bytes=bs, version=version)]. *)
Definition UUID_bytes (bs : bytes) (version : Z) : outcome UUID :=
  if negb (length bs =? 16)%nat then
    Raised (ValueError "bytes is not a 16-char string")
  else
    outcome_bind (check_int (int_from_bytes bs)) (fun i =>
    outcome_bind (set_version version i) (fun i =>
    Returned (mkUUID i))).

(** [UUID.bytes]. *)
Definition UUID_to_bytes (u : UUID) : bytes := int_to_bytes 16 (int u).

(** [UUID.__str__]. *)
Definition UUID_str (u : UUID) : str :=
  let hex := format_032x (int u) in
  let slice (a b : nat) := firstn (b - a) (skipn a hex) in
  slice 0%nat 8%nat ++ lit "-" ++ slice 8%nat 12%nat ++ lit "-"
    ++ slice 12%nat 16%nat ++ lit "-" ++ slice 16%nat 20%nat ++ lit "-"
    ++ skipn 20 hex.

(** [uuid5(namespace, name)]. *)
Definition uuid5 (namespace : UUID) (name : str) : outcome UUID :=
  outcome_bind (utf8_encode name) (fun encoded =>
  let hash := SHA1.digest (UUID_to_bytes namespace ++ encoded) in
  UUID_bytes (firstn 16 hash) 5).

(** ** External calls and the program monad *)

(** SDK objects are held by reference. *)
Definition ref := nat.

Inductive AutoSubscribe : Type :=
| SUBSCRIBE_ALL | SUBSCRIBE_NONE | AUDIO_ONLY | VIDEO_ONLY.

Record Participant : Type := mkParticipant { sid : str; identity : str }.

Record Room : Type := mkRoom { name : str }.

Record JobProcess : Type := mkJobProcess { userdata : list (string * ref) }.

Record JobContext : Type := mkJobContext { room : Room; proc : JobProcess }.

(** The SDK's metrics union, with the counters a usage collector reads. *)
Inductive AgentMetrics : Type :=
| LLMMetrics (prompt_tokens completion_tokens : Z)
| TTSMetrics (characters_count : Z)
| STTMetrics
| VADMetrics
| EOUMetrics.

Record UserStateChangedEvent : Type :=
  mkUserStateChangedEvent { user_old_state : str; user_new_state : str }.

Record AgentStateChangedEvent : Type :=
  mkAgentStateChangedEvent { agent_old_state : str; agent_new_state : str }.

(** The closures [entrypoint] registers, with what each one captures. *)
Inductive Callback : Type :=
| cb_on_metrics_collected (usage_collector : ref)
| cb_on_user_state_changed
| cb_on_agent_state_changed.

(** What the script asks of the world outside it, indexed by the type of the
    answer. *)
Inductive Call : Type -> Type :=
| os_urandom (size : nat) : Call bytes
| print (line : str) : Call unit
| logger_info (message : str) : Call unit
| ctx_connect (auto_subscribe : AutoSubscribe) : Call unit
| ctx_wait_for_participant : Call Participant
| metrics_UsageCollector : Call ref
| metrics_log_metrics (agent_metrics : AgentMetrics) : Call unit
| usage_collector_collect (collector : ref) (agent_metrics : AgentMetrics) : Call unit
| RemoteGraph (graph_name : str) (url : option str) : Call ref
| LangGraphAdapter (graph : ref) (thread_id : str) : Call ref
| AgentSession (vad : ref) (min_endpointing_delay max_endpointing_delay : Q)
    (llm : ref) : Call ref
| session_on (session : ref) (event : str) (callback : Callback) : Call unit
| deepgram_STT : Call ref
| cartesia_TTS : Call ref
| MultilingualModel : Call ref
| Agent_init (instructions : str) (stt tts turn_detection : ref) : Call ref
| noise_cancellation_BVC : Call ref
| RoomInputOptions (noise_cancellation : ref) : Call ref
| session_start (session : ref) (in_room : Room) (agent : ref)
    (room_input_options : ref) : Call unit
| session_generate_reply (session : ref) (instructions : str)
    (allow_interruptions : bool) : Call unit
| silero_VAD_load : Call ref.

Inductive Prog (A : Type) : Type :=
| Ret (a : A)
| Raise (e : exn)
| Vis (X : Type) (c : Call X) (k : X -> Prog A).
Arguments Ret {A} a.
Arguments Raise {A} e.
Arguments Vis {A X} c k.

Fixpoint bind {A B} (p : Prog A) (f : A -> Prog B) : Prog B :=
  match p with
  | Ret a => f a
  | Raise e => Raise e
  | Vis c k => Vis c (fun x => bind (k x) f)
  end.

Definition call {X} (c : Call X) : Prog X := Vis c Ret.

Definition lift {A} (o : outcome A) : Prog A :=
  match o with
  | Returned a => Ret a
  | Raised e => Raise e
  end.

Declare Scope prog_scope.
Delimit Scope prog_scope with prog.
Notation "x <- p ;; q" := (bind p (fun x => q))
  (at level 61, p at next level, right associativity) : prog_scope.
Notation "p ;;; q" := (bind p (fun _ => q))
  (at level 61, right associativity) : prog_scope.
Local Open Scope prog_scope.

(** A call made, whatever it answered. *)
Inductive called : Type :=
| Called {X : Type} (c : Call X).

Section Semantics.

(** The world outside the script and how it answers a call. *)
Variable World : Type.
Variable answer : forall X, Call X -> World -> outcome X * World.

(** Running a program: its result, the world it leaves and the calls it
    made, in order.  A call that raises ends the program there. *)
Fixpoint exec {A} (p : Prog A) (w : World) : outcome A * World * list called :=
  match p with
  | Ret a => (Returned a, w, [])
  | Raise e => (Raised e, w, [])
  | Vis c k =>
      match answer _ c w with
      | (Returned x, w') =>
          let '(r, w'', t) := exec (k x) w' in (r, w'', Called c :: t)
      | (Raised e, w') => (Raised e, w', [Called c])
      end
  end.

Definition result {A} (p : Prog A) (w : World) : outcome A := fst (fst (exec p w)).
Definition world_after {A} (p : Prog A) (w : World) : World := snd (fst (exec p w)).
Definition calls {A} (p : Prog A) (w : World) : list called := snd (exec p w).

(** [os.urandom(n)] answers with exactly [n] bytes. *)
Definition urandom_contract : Prop :=
  forall n w, exists bs w',
    answer _ (os_urandom n) w = (Returned bs, w') /\ length bs = n.

End Semantics.

Arguments exec {World} answer {A} p w.
Arguments result {World} answer {A} p w.
Arguments world_after {World} answer {A} p w.
Arguments calls {World} answer {A} p w.
Arguments urandom_contract {World} answer.

(** ** The script *)

(** [uuid4()]. *)
Definition uuid4 : Prog UUID :=
  random <- call (os_urandom 16) ;;
  lift (UUID_bytes random 4).

Definition get_thread_id (sid : option str) : Prog str :=
  NAMESPACE <- lift (UUID_hex (lit "41010b5d-5447-4df5-baf2-97d69f2e9d06")) ;;
  match sid with
  | Some sid => u <- lift (uuid5 NAMESPACE sid) ;; Ret (UUID_str u)
  | None => u <- uuid4 ;; Ret (UUID_str u)
  end.

(** A Python dict with string keys: [d[key]] and [d[key] = v]. *)
Fixpoint dict_get (d : list (string * ref)) (key : string) : outcome ref :=
  match d with
  | [] => Raised (KeyError key)
  | (k, v) :: d' => if String.eqb k key then Returned v else dict_get d' key
  end.

Fixpoint dict_set (d : list (string * ref)) (key : string) (v : ref)
  : list (string * ref) :=
  match d with
  | [] => [(key, v)]
  | (k, v') :: d' =>
      if String.eqb k key then (k, v) :: d' else (k, v') :: dict_set d' key v
  end.

Fixpoint str_eqb (s t : str) : bool :=
  match s, t with
  | [], [] => true
  | c :: s', d :: t' => (c =? d) && str_eqb s' t'
  | _, _ => false
  end.

Fixpoint for_each {E} (f : E -> Prog unit) (events : list E) : Prog unit :=
  match events with
  | [] => Ret tt
  | ev :: rest => f ev ;;; for_each f rest
  end.

Section Script.

(** The prompt text of [Assistant.__init__] and the [REMOTE_GRAPH_URL]
    environment entry read when the module is loaded. *)
Variable instructions : str.
Variable remote_graph_url : option str.

(** [Assistant()]: the arguments of [super().__init__] in order. *)
Definition Assistant : Prog ref :=
  stt <- call deepgram_STT ;;
  tts <- call cartesia_TTS ;;
  turn_detection <- call MultilingualModel ;;
  call (Agent_init instructions stt tts turn_detection).

(** [Assistant.on_enter], with [self.session] as argument. *)
Definition on_enter (session : ref) : Prog unit :=
  call (session_generate_reply session
          (lit "Hey, how can I help you today?") true).

Definition prewarm (proc : JobProcess) : Prog JobProcess :=
  vad <- call silero_VAD_load ;;
  Ret (mkJobProcess (dict_set (userdata proc) "vad" vad)).

Definition on_metrics_collected (usage_collector : ref)
    (agent_metrics : AgentMetrics) : Prog unit :=
  call (metrics_log_metrics agent_metrics) ;;;
  call (usage_collector_collect usage_collector agent_metrics).

Definition on_user_state_changed (ev : UserStateChangedEvent) : Prog unit :=
  if str_eqb (user_new_state ev) (lit "speaking") then
    call (print (lit "User started speaking"))
  else if str_eqb (user_new_state ev) (lit "listening") then
    call (print (lit "User stopped speaking"))
  else if str_eqb (user_new_state ev) (lit "away") then
    call (print (lit "User is not present (e.g. disconnected)"))
  else Ret tt.

Definition on_agent_state_changed (ev : AgentStateChangedEvent) : Prog unit :=
  if str_eqb (agent_new_state ev) (lit "initializing") then
    call (print (lit "Agent is starting up"))
  else if str_eqb (agent_new_state ev) (lit "idle") then
    call (print (lit "Agent is ready but not processing"))
  else if str_eqb (agent_new_state ev) (lit "listening") then
    call (print (lit "Agent is listening for user input"))
  else if str_eqb (agent_new_state ev) (lit "thinking") then
    call (print (lit "Agent is processing user input and generating a response"))
  else if str_eqb (agent_new_state ev) (lit "speaking") then
    call (print (lit "Agent started speaking"))
  else Ret tt.

Definition entrypoint (ctx : JobContext) : Prog unit :=
  call (logger_info (lit "connecting to room " ++ name (room ctx))) ;;;
  call (ctx_connect AUDIO_ONLY) ;;;
  participant <- call ctx_wait_for_participant ;;
  thread_id <- get_thread_id (Some (sid participant)) ;;
  call (logger_info (lit "starting voice assistant for participant "
                       ++ identity participant)) ;;;
  usage_collector <- call metrics_UsageCollector ;;
  graph <- call (RemoteGraph (lit "stepwork_assistant") remote_graph_url) ;;
  vad <- lift (dict_get (userdata (proc ctx)) "vad") ;;
  llm <- call (LangGraphAdapter graph thread_id) ;;
  session <- call (AgentSession vad (1 # 2) (5 # 1) llm) ;;
  call (session_on session (lit "metrics_collected")
          (cb_on_metrics_collected usage_collector)) ;;;
  call (session_on session (lit "user_state_changed")
          cb_on_user_state_changed) ;;;
  call (session_on session (lit "agent_state_changed")
          cb_on_agent_state_changed) ;;;
  agent <- Assistant ;;
  bvc <- call noise_cancellation_BVC ;;
  options <- call (RoomInputOptions bvc) ;;
  call (session_start session (room ctx) agent options).

End Script.

Arguments Assistant instructions : assert.
Arguments entrypoint instructions remote_graph_url ctx : assert.

(** ** A simulated world

    One concrete world to run the script in: a stream of entropy bytes, the
    console, the log, a usage collector that adds up token and character
    counts, the participants about to join and what the session was told. *)

Module Sim.

Record UsageSummary : Type := mkUsageSummary {
  llm_prompt_tokens : Z;
  llm_completion_tokens : Z;
  tts_characters_count : Z
}.

Record World : Type := mkWorld {
  entropy : nat -> byte;
  cursor : nat;
  stdout : list str;
  log : list str;
  logged_metrics : list AgentMetrics;
  summary : UsageSummary;
  joining : list Participant;
  next_ref : ref;
  registered : list (str * Callback);
  replies : list (str * bool);
  started : list ref
}.

Definition collect (m : AgentMetrics) (u : UsageSummary) : UsageSummary :=
  match m with
  | LLMMetrics prompt_tokens completion_tokens =>
      mkUsageSummary (llm_prompt_tokens u + prompt_tokens)
        (llm_completion_tokens u + completion_tokens) (tts_characters_count u)
  | TTSMetrics characters_count =>
      mkUsageSummary (llm_prompt_tokens u) (llm_completion_tokens u)
        (tts_characters_count u + characters_count)
  | _ => u
  end.

Definition fresh (w : World) : outcome ref * World :=
  (Returned (next_ref w),
   mkWorld (entropy w) (cursor w) (stdout w) (log w) (logged_metrics w)
     (summary w) (joining w) (S (next_ref w)) (registered w) (replies w)
     (started w)).

Definition answer (X : Type) (c : Call X) (w : World) : outcome X * World :=
  match c in Call X return outcome X * World with
  | os_urandom size =>
      (Returned (map (fun i => entropy w (cursor w + i)%nat) (seq 0 size)),
       mkWorld (entropy w) (cursor w + size) (stdout w) (log w)
         (logged_metrics w) (summary w) (joining w) (next_ref w)
         (registered w) (replies w) (started w))
  | print line =>
      (Returned tt,
       mkWorld (entropy w) (cursor w) (stdout w ++ [line]) (log w)
         (logged_metrics w) (summary w) (joining w) (next_ref w)
         (registered w) (replies w) (started w))
  | logger_info message =>
      (Returned tt,
       mkWorld (entropy w) (cursor w) (stdout w) (log w ++ [message])
         (logged_metrics w) (summary w) (joining w) (next_ref w)
         (registered w) (replies w) (started w))
  | ctx_connect _ => (Returned tt, w)
  | ctx_wait_for_participant =>
      match joining w with
      | p :: rest =>
          (Returned p,
           mkWorld (entropy w) (cursor w) (stdout w) (log w)
             (logged_metrics w) (summary w) rest (next_ref w)
             (registered w) (replies w) (started w))
      | [] => (Raised (SdkError "no participant"), w)
      end
  | metrics_log_metrics agent_metrics =>
      (Returned tt,
       mkWorld (entropy w) (cursor w) (stdout w) (log w)
         (logged_metrics w ++ [agent_metrics]) (summary w) (joining w)
         (next_ref w) (registered w) (replies w) (started w))
  | usage_collector_collect _ agent_metrics =>
      (Returned tt,
       mkWorld (entropy w) (cursor w) (stdout w) (log w) (logged_metrics w)
         (collect agent_metrics (summary w)) (joining w) (next_ref w)
         (registered w) (replies w) (started w))
  | session_on _ event callback =>
      (Returned tt,
       mkWorld (entropy w) (cursor w) (stdout w) (log w) (logged_metrics w)
         (summary w) (joining w) (next_ref w)
         (registered w ++ [(event, callback)]) (replies w) (started w))
  | session_start session _ _ _ =>
      (Returned tt,
       mkWorld (entropy w) (cursor w) (stdout w) (log w) (logged_metrics w)
         (summary w) (joining w) (next_ref w) (registered w) (replies w)
         (started w ++ [session]))
  | session_generate_reply _ instructions allow_interruptions =>
      (Returned tt,
       mkWorld (entropy w) (cursor w) (stdout w) (log w) (logged_metrics w)
         (summary w) (joining w) (next_ref w) (registered w)
         (replies w ++ [(instructions, allow_interruptions)]) (started w))
  | metrics_UsageCollector => fresh w
  | RemoteGraph _ _ => fresh w
  | LangGraphAdapter _ _ => fresh w
  | AgentSession _ _ _ _ => fresh w
  | deepgram_STT => fresh w
  | cartesia_TTS => fresh w
  | MultilingualModel => fresh w
  | Agent_init _ _ _ _ => fresh w
  | noise_cancellation_BVC => fresh w
  | RoomInputOptions _ => fresh w
  | silero_VAD_load => fresh w
  end.

(** An entropy stream for the examples: byte [i] is [37 * i + 11] mod 256. *)
Definition counter_entropy (i : nat) : byte := byte_of_Z (37 * Z.of_nat i + 11).

Definition initial : World :=
  mkWorld counter_entropy 0%nat [] [] [] (mkUsageSummary 0 0 0)
    [mkParticipant (lit "PA_abc123") (lit "alice")] 1%nat [] [] [].

(** A job whose process was prewarmed: the VAD model is object 0. *)
Definition job : JobContext :=
  mkJobContext (mkRoom (lit "kitchen")) (mkJobProcess [("vad"%string, 0%nat)]).

End Sim.

(** ** Vocabulary of the statements *)

(** The bits of a 128-bit value that [set_version] leaves alone: all but the
    two variant bits (62, 63) and the four version bits (76 to 79). *)
Definition KEPT : Z :=
  Z.land (Z.ones 128)
    (Z.lnot (Z.lor (Z.shiftl 0xc000 48) (Z.shiftl 0xf000 64))).

Definition kept_bits (i : Z) : Z := Z.land i KEPT.

(** What [set_version] computes for a legal version number. *)
Definition stamp (version i : Z) : Z :=
  Z.lor (Z.land (Z.lor (Z.land i (Z.lnot (Z.shiftl 0xc000 48)))
                       (Z.shiftl 0x8000 48))
                (Z.lnot (Z.shiftl 0xf000 64)))
        (Z.shiftl version 76).

(** A function on integers that acts on every bit position on its own. *)
Definition bitwise (f : Z -> Z) : Prop :=
  exists g : bool -> Z -> bool,
    forall i n, 0 <= n -> Z.testbit (f i) n = g (Z.testbit i n) n.

(** The UTF-8 bytes of one code point, as numbers. *)
Definition char_bytes (ch : Z) : list Z :=
  if ch <? 0x80 then [ch]
  else if ch <? 0x800 then [192 + ch / 64; 128 + ch mod 64]
  else if ch <? 0x10000 then
    [224 + ch / 4096; 128 + (ch / 64) mod 64; 128 + ch mod 64]
  else
    [240 + ch / 262144; 128 + (ch / 4096) mod 64; 128 + (ch / 64) mod 64;
     128 + ch mod 64].

(** The value the constructor parses from the namespace literal. *)
Definition NAMESPACE : UUID := mkUUID 0x41010b5d54474df5baf297d69f2e9d06.

(** [n] written on exactly [k] hexadecimal digits. *)
Fixpoint fixed_hex (k : nat) (n : Z) : str :=
  match k with
  | O => []
  | S k' => fixed_hex k' (n / 16) ++ [hex_digit (n mod 16)]
  end.

Definition is_hex_char (c : Z) : bool :=
  ((48 <=? c) && (c <=? 57)) || ((97 <=? c) && (c <=? 102)).

(** Canonical UUID text: 8-4-4-4-12 hexadecimal digits between hyphens. *)
Definition canonical_uuid_text (s : str) : Prop :=
  exists g1 g2 g3 g4 g5 : str,
    s = g1 ++ [45] ++ g2 ++ [45] ++ g3 ++ [45] ++ g4 ++ [45] ++ g5
    /\ length g1 = 8%nat /\ length g2 = 4%nat /\ length g3 = 4%nat
    /\ length g4 = 4%nat /\ length g5 = 12%nat
    /\ forallb is_hex_char (g1 ++ g2 ++ g3 ++ g4 ++ g5) = true.

Definition encodable (s : str) : Prop := Forall (fun ch => is_surrogate ch = false) s.

(** A call that only writes a line for a human: console or log. *)
Definition diagnostic (c : called) : bool :=
  match c with
  | Called (print _) => true
  | Called (logger_info _) => true
  | Called (metrics_log_metrics _) => true
  | Called _ => false
  end.

(** What [get_thread_id] computes from a present session id, and from the
    sixteen bytes it draws when the session id is absent. *)
Definition derived (s : str) : outcome str :=
  outcome_bind (uuid5 NAMESPACE s) (fun u => Returned (UUID_str u)).

Definition drawn (random : bytes) : outcome str :=
  outcome_bind (UUID_bytes random 4) (fun u => Returned (UUID_str u)).

(** The message [uuid5] hashes for a name, and the 122 bits of its digest
    that reach the identifier. *)
Definition hashed (encoded : bytes) : bytes := UUID_to_bytes NAMESPACE ++ encoded.

Definition digest_bits (msg : bytes) : Z :=
  kept_bits (int_from_bytes (firstn 16 (SHA1.digest msg))).

(** The agent states the observer knows and the line it prints for each. *)
Definition agent_lines : list (str * str) :=
  [(lit "initializing", lit "Agent is starting up");
   (lit "idle", lit "Agent is ready but not processing");
   (lit "listening", lit "Agent is listening for user input");
   (lit "thinking",
    lit "Agent is processing user input and generating a response");
   (lit "speaking", lit "Agent started speaking")].

Fixpoint line_for (table : list (str * str)) (state : str) : option str :=
  match table with
  | [] => None
  | (known, line) :: table' =>
      if str_eqb state known then Some line else line_for table' state
  end.

Definition user_lines : list (str * str) :=
  [(lit "speaking", lit "User started speaking");
   (lit "listening", lit "User stopped speaking");
   (lit "away", lit "User is not present (e.g. disconnected)")].

(** The console never refuses a line. *)
Definition prints_succeed {World} (answer : forall X, Call X -> World -> outcome X * World)
  : Prop :=
  forall line w, exists w', answer _ (print line) w = (Returned tt, w').

(** The name under which the script makes a call. *)
Definition call_name (c : called) : string :=
  match c with
  | Called (os_urandom _) => "os.urandom"
  | Called (print _) => "print"
  | Called (logger_info _) => "logger.info"
  | Called (ctx_connect _) => "ctx.connect"
  | Called ctx_wait_for_participant => "ctx.wait_for_participant"
  | Called metrics_UsageCollector => "metrics.UsageCollector"
  | Called (metrics_log_metrics _) => "metrics.log_metrics"
  | Called (usage_collector_collect _ _) => "usage_collector.collect"
  | Called (RemoteGraph _ _) => "RemoteGraph"
  | Called (LangGraphAdapter _ _) => "LangGraphAdapter"
  | Called (AgentSession _ _ _ _) => "AgentSession"
  | Called (session_on _ _ _) => "session.on"
  | Called deepgram_STT => "deepgram.STT"
  | Called cartesia_TTS => "cartesia.TTS"
  | Called MultilingualModel => "MultilingualModel"
  | Called (Agent_init _ _ _ _) => "Agent.__init__"
  | Called noise_cancellation_BVC => "noise_cancellation.BVC"
  | Called (RoomInputOptions _) => "RoomInputOptions"
  | Called (session_start _ _ _ _) => "session.start"
  | Called (session_generate_reply _ _ _) => "session.generate_reply"
  | Called silero_VAD_load => "silero.VAD.load"
  end.

(** The calls of a complete startup, by name. *)
Definition STARTUP_ORDER : list string :=
  ["logger.info"; "ctx.connect"; "ctx.wait_for_participant"; "logger.info";
   "metrics.UsageCollector"; "RemoteGraph"; "LangGraphAdapter"; "AgentSession";
   "session.on"; "session.on"; "session.on"; "deepgram.STT"; "cartesia.TTS";
   "MultilingualModel"; "Agent.__init__"; "noise_cancellation.BVC";
   "RoomInputOptions"; "session.start"]%string.

Fixpoint is_prefix (l full : list string) : bool :=
  match l, full with
  | [], _ => true
  | x :: l', y :: full' => String.eqb x y && is_prefix l' full'
  | _ :: _, [] => false
  end.

(** The six bits [set_version] overwrites, the 64 values they can take,
    and the sixteen-byte draws that differ from [draw] in those bits only. *)
Definition LOST : Z := Z.lor (Z.shiftl 0xc000 48) (Z.shiftl 0xf000 64).

Definition lost_patterns : list Z :=
  map (fun n => Z.lor (Z.shiftl (Z.of_nat n mod 4) 62)
                      (Z.shiftl (Z.of_nat n / 4) 76))
      (seq 0 64).

Definition colliding_draws (draw : bytes) : list bytes :=
  map (fun k => int_to_bytes 16 (Z.lor (kept_bits (int_from_bytes draw)) k))
      lost_patterns.

Fixpoint distinct (l : list Z) : bool :=
  match l with
  | [] => true
  | x :: l' => negb (existsb (Z.eqb x) l') && distinct l'
  end.

(** A completed startup, call by call.  From [w] the world answers each call
    of [entrypoint] in turn; every object a call is given is the one an
    earlier call returned: the adapter gets the graph handle that
    [RemoteGraph] returned and the identifier derived from the session id
    of the participant that the wait returned, the session gets the VAD
    model of the process and that adapter, the observers are registered on
    that session, the metrics callback holds the usage collector that was
    constructed, the agent is built from the three plugin objects, and the
    start is given that session, that agent and the options that hold the
    noise filter.  [run] is what the run as a whole gives. *)
Definition completed_startup {World}
    (answer : forall X, Call X -> World -> outcome X * World)
    (instructions : str) (remote_graph_url : option str) (ctx : JobContext)
    (w : World) (run : outcome unit * World * list called) : Prop :=
  exists (w1 w2 w3 w4 w5 w6 w7 w8 w9 w10 w11 w12 w13 w14 w15 w16 w17 w18 : World)
         (participant : Participant) (thread_id : str)
         (usage_collector graph vad llm session stt tts turn_detection
            agent bvc options : ref),
    answer _ (logger_info (lit "connecting to room " ++ name (room ctx))) w
    = (Returned tt, w1)
    /\ answer _ (ctx_connect AUDIO_ONLY) w1 = (Returned tt, w2)
    /\ answer _ ctx_wait_for_participant w2 = (Returned participant, w3)
    /\ derived (sid participant) = Returned thread_id
    /\ answer _ (logger_info (lit "starting voice assistant for participant "
                                ++ identity participant)) w3
       = (Returned tt, w4)
    /\ answer _ metrics_UsageCollector w4 = (Returned usage_collector, w5)
    /\ answer _ (RemoteGraph (lit "stepwork_assistant") remote_graph_url) w5
       = (Returned graph, w6)
    /\ dict_get (userdata (proc ctx)) "vad" = Returned vad
    /\ answer _ (LangGraphAdapter graph thread_id) w6 = (Returned llm, w7)
    /\ answer _ (AgentSession vad (1 # 2) (5 # 1) llm) w7 = (Returned session, w8)
    /\ answer _ (session_on session (lit "metrics_collected")
                   (cb_on_metrics_collected usage_collector)) w8
       = (Returned tt, w9)
    /\ answer _ (session_on session (lit "user_state_changed")
                   cb_on_user_state_changed) w9
       = (Returned tt, w10)
    /\ answer _ (session_on session (lit "agent_state_changed")
                   cb_on_agent_state_changed) w10
       = (Returned tt, w11)
    /\ answer _ deepgram_STT w11 = (Returned stt, w12)
    /\ answer _ cartesia_TTS w12 = (Returned tts, w13)
    /\ answer _ MultilingualModel w13 = (Returned turn_detection, w14)
    /\ answer _ (Agent_init instructions stt tts turn_detection) w14
       = (Returned agent, w15)
    /\ answer _ noise_cancellation_BVC w15 = (Returned bvc, w16)
    /\ answer _ (RoomInputOptions bvc) w16 = (Returned options, w17)
    /\ answer _ (session_start session (room ctx) agent options) w17
       = (Returned tt, w18)
    /\ run
       = (Returned tt, w18,
          [Called (logger_info (lit "connecting to room " ++ name (room ctx)));
           Called (ctx_connect AUDIO_ONLY);
           Called ctx_wait_for_participant;
           Called (logger_info (lit "starting voice assistant for participant "
                                  ++ identity participant));
           Called metrics_UsageCollector;
           Called (RemoteGraph (lit "stepwork_assistant") remote_graph_url);
           Called (LangGraphAdapter graph thread_id);
           Called (AgentSession vad (1 # 2) (5 # 1) llm);
           Called (session_on session (lit "metrics_collected")
                     (cb_on_metrics_collected usage_collector));
           Called (session_on session (lit "user_state_changed")
                     cb_on_user_state_changed);
           Called (session_on session (lit "agent_state_changed")
                     cb_on_agent_state_changed);
           Called deepgram_STT;
           Called cartesia_TTS;
           Called MultilingualModel;
           Called (Agent_init instructions stt tts turn_detection);
           Called noise_cancellation_BVC;
           Called (RoomInputOptions bvc);
           Called (session_start session (room ctx) agent options)]).

(** ** Vocabulary of the further properties *)

(** The thread identifiers handed to [LangGraphAdapter] and the VAD handles
    handed to [AgentSession] among the calls of a run. *)
Definition thread_ids (t : list called) : list str :=
  flat_map (fun c => match c with
                     | Called (LangGraphAdapter _ thread_id) => [thread_id]
                     | Called _ => []
                     end) t.

Definition session_vads (t : list called) : list ref :=
  flat_map (fun c => match c with
                     | Called (AgentSession vad _ _ _) => [vad]
                     | Called _ => []
                     end) t.

(** A world in which no call ever raises. *)
Definition always_returns {World}
    (answer : forall X, Call X -> World -> outcome X * World) : Prop :=
  forall X (c : Call X) w, exists x w', answer X c w = (Returned x, w').

(** From [w], the first two calls of [entrypoint] return and the wait
    answers with [participant]. *)
Definition waited {World}
    (answer : forall X, Call X -> World -> outcome X * World)
    (ctx : JobContext) (w : World) (participant : Participant) : Prop :=
  exists w1 w2 w3,
    answer _ (logger_info (lit "connecting to room " ++ name (room ctx))) w
    = (Returned tt, w1)
    /\ answer _ (ctx_connect AUDIO_ONLY) w1 = (Returned tt, w2)
    /\ answer _ ctx_wait_for_participant w2 = (Returned participant, w3).

(** A world without memory that answers every call: the same participant
    joins every time, every object is object 0 and entropy is all zeros. *)
Module Quiet.

Definition answer (joining : Participant) (X : Type) (c : Call X) (w : unit)
  : outcome X * unit :=
  match c in Call X return outcome X * unit with
  | os_urandom size => (Returned (repeat x00 size), tt)
  | print _ => (Returned tt, tt)
  | logger_info _ => (Returned tt, tt)
  | ctx_connect _ => (Returned tt, tt)
  | ctx_wait_for_participant => (Returned joining, tt)
  | metrics_UsageCollector => (Returned 0%nat, tt)
  | metrics_log_metrics _ => (Returned tt, tt)
  | usage_collector_collect _ _ => (Returned tt, tt)
  | RemoteGraph _ _ => (Returned 0%nat, tt)
  | LangGraphAdapter _ _ => (Returned 0%nat, tt)
  | AgentSession _ _ _ _ => (Returned 0%nat, tt)
  | session_on _ _ _ => (Returned tt, tt)
  | deepgram_STT => (Returned 0%nat, tt)
  | cartesia_TTS => (Returned 0%nat, tt)
  | MultilingualModel => (Returned 0%nat, tt)
  | Agent_init _ _ _ _ => (Returned 0%nat, tt)
  | noise_cancellation_BVC => (Returned 0%nat, tt)
  | RoomInputOptions _ => (Returned 0%nat, tt)
  | session_start _ _ _ _ => (Returned tt, tt)
  | session_generate_reply _ _ _ => (Returned tt, tt)
  | silero_VAD_load => (Returned 0%nat, tt)
  end.

End Quiet.

(** * Properties *)

(** ** The embedding on known values

    The FIPS 180-4 test vector for "abc", a digest over two blocks, the
    codec on one-, two-, three- and four-byte code points, and identifiers
    as the interpreter prints them. *)

Example sha1_abc :
  map Z_of_byte (SHA1.digest [x61; x62; x63])
  = [0xa9; 0x99; 0x3e; 0x36; 0x47; 0x06; 0x81; 0x6a; 0xba; 0x3e;
     0x25; 0x71; 0x78; 0x50; 0xc2; 0x6c; 0x9c; 0xd0; 0xd8; 0x9d].
Proof. vm_compute. reflexivity. Qed.

Example sha1_empty :
  map Z_of_byte (SHA1.digest [])
  = [0xda; 0x39; 0xa3; 0xee; 0x5e; 0x6b; 0x4b; 0x0d; 0x32; 0x55;
     0xbf; 0xef; 0x95; 0x60; 0x18; 0x90; 0xaf; 0xd8; 0x07; 0x09].
Proof. vm_compute. reflexivity. Qed.

Example utf8_encode_mixed :
  utf8_encode [104; 233; 108; 108; 111; 8364; 128512]
  = Returned [x68; xc3; xa9; x6c; x6c; x6f; xe2; x82; xac; xf0; x9f; x98; x80].
Proof. vm_compute. reflexivity. Qed.

Example utf8_encode_surrogate_inside :
  utf8_encode [97; 98; 0xDFFF; 122] = Raised (UnicodeEncodeError 2 0xDFFF).
Proof. vm_compute. reflexivity. Qed.

Example derived_abc123 :
  derived (lit "abc123") = Returned (lit "0d578a70-6e15-559e-84db-77e9d0956ee9").
Proof. vm_compute. reflexivity. Qed.

Example derived_empty :
  derived [] = Returned (lit "4bfedad8-7701-536c-8d8a-25ec114679e2").
Proof. vm_compute. reflexivity. Qed.

Example derived_two_blocks :
  derived (lit "PA_" ++ repeat 120 70)
  = Returned (lit "10ea5d32-3197-5a07-8eb0-6564ea2577b8").
Proof. vm_compute. reflexivity. Qed.

Example derived_mixed :
  derived [104; 233; 108; 108; 111; 8364; 128512]
  = Returned (lit "141b6833-5dd4-5f79-883c-6c1ddd99f228").
Proof. vm_compute. reflexivity. Qed.

Example UUID_str_of_hex :
  outcome_bind (UUID_hex (lit "{urn:uuid:41010B5D-5447-4df5-baf2-97d69f2e9d06}"))
    (fun u => Returned (UUID_str u))
  = Returned (lit "41010b5d-5447-4df5-baf2-97d69f2e9d06").
Proof. vm_compute. reflexivity. Qed.

(** ** Bytes and integers *)

Lemma Z_of_byte_range (b : byte) : 0 <= Z_of_byte b < 256.
Proof.
  unfold Z_of_byte. pose proof (Byte.to_N_bounded b). lia.
Qed.

Lemma Z_of_byte_of_Z (z : Z) : Z_of_byte (byte_of_Z z) = z mod 256.
Proof.
  unfold Z_of_byte, byte_of_Z.
  pose proof (Z.mod_pos_bound z 256 ltac:(lia)) as Hr.
  destruct (Byte.of_N (Z.to_N (z mod 256))) as [b|] eqn:E.
  - apply Byte.to_of_N in E. rewrite E. lia.
  - apply Byte.of_N_None_iff in E. lia.
Qed.

Lemma byte_of_Z_of_byte (b : byte) : byte_of_Z (Z_of_byte b) = b.
Proof.
  unfold byte_of_Z, Z_of_byte. pose proof (Byte.to_N_bounded b).
  rewrite Z.mod_small by lia. rewrite N2Z.id, Byte.of_to_N. reflexivity.
Qed.

Lemma Z_of_byte_inj (a b : byte) : Z_of_byte a = Z_of_byte b -> a = b.
Proof.
  intros H. rewrite <- (byte_of_Z_of_byte a), <- (byte_of_Z_of_byte b).
  now rewrite H.
Qed.

Lemma int_from_bytes_acc (bs : bytes) (acc : Z) :
  fold_left (fun acc b => acc * 256 + Z_of_byte b) bs acc
  = acc * 256 ^ Z.of_nat (length bs) + int_from_bytes bs.
Proof.
  unfold int_from_bytes. revert acc.
  induction bs as [|b bs IH]; intros acc.
  - simpl. lia.
  - change (length (b :: bs)) with (S (length bs)).
    rewrite Nat2Z.inj_succ, Z.pow_succ_r by lia.
    cbn [fold_left]. rewrite IH, (IH (0 * 256 + _)). ring.
Qed.

Lemma int_from_bytes_cons (b : byte) (bs : bytes) :
  int_from_bytes (b :: bs)
  = Z_of_byte b * 256 ^ Z.of_nat (length bs) + int_from_bytes bs.
Proof.
  unfold int_from_bytes at 1. simpl fold_left. apply int_from_bytes_acc.
Qed.

Lemma int_from_bytes_range (bs : bytes) :
  0 <= int_from_bytes bs < 256 ^ Z.of_nat (length bs).
Proof.
  induction bs as [|b bs IH].
  - cbn. lia.
  - rewrite int_from_bytes_cons.
    change (length (b :: bs)) with (S (length bs)).
    rewrite Nat2Z.inj_succ, Z.pow_succ_r by lia.
    pose proof (Z_of_byte_range b). nia.
Qed.

Lemma int_from_bytes_inj (xs ys : bytes) :
  length xs = length ys -> int_from_bytes xs = int_from_bytes ys -> xs = ys.
Proof.
  revert ys. induction xs as [|x xs IH]; intros [|y ys] Hl He;
    try discriminate; [reflexivity|].
  injection Hl as Hl. rewrite !int_from_bytes_cons, <- Hl in He.
  pose proof (int_from_bytes_range xs) as Rx.
  pose proof (int_from_bytes_range ys) as Ry. rewrite <- Hl in Ry.
  pose proof (Z_of_byte_range x). pose proof (Z_of_byte_range y).
  assert (Z_of_byte x = Z_of_byte y) by nia.
  f_equal.
  - now apply Z_of_byte_inj.
  - apply IH; [assumption | nia].
Qed.

Lemma int_to_bytes_length (k : nat) (n : Z) : length (int_to_bytes k n) = k.
Proof.
  revert n. induction k as [|k IH]; intros n; simpl; [reflexivity|].
  rewrite length_app, IH. simpl. lia.
Qed.

Lemma int_from_to_bytes (k : nat) (n : Z) :
  0 <= n < 256 ^ Z.of_nat k -> int_from_bytes (int_to_bytes k n) = n.
Proof.
  revert n. induction k as [|k IH]; intros n Hn.
  - cbn in *. lia.
  - simpl int_to_bytes. unfold int_from_bytes.
    rewrite fold_left_app. simpl fold_left.
    fold (int_from_bytes (int_to_bytes k (n / 256))).
    rewrite Nat2Z.inj_succ, Z.pow_succ_r in Hn by lia.
    rewrite IH, Z_of_byte_of_Z.
    + pose proof (Z.div_mod n 256 ltac:(lia)). lia.
    + split; [apply Z.div_pos; lia | apply Z.div_lt_upper_bound; lia].
Qed.

Lemma digest_length (msg : bytes) : length (SHA1.digest msg) = 20%nat.
Proof.
  unfold SHA1.digest.
  destruct (fold_left SHA1.compress _ SHA1.init) as [[[[h0 h1] h2] h3] h4].
  rewrite !length_app, !int_to_bytes_length. reflexivity.
Qed.

(** ** Bitwise functions

    A function built from [Z.land] and [Z.lor] with constants acts on every
    bit position on its own, so two such functions that agree on [0] and on
    [-1] agree everywhere. *)

Lemma bitwise_id : bitwise (fun i => i).
Proof. exists (fun b _ => b). reflexivity. Qed.

Lemma bitwise_const (c : Z) : bitwise (fun _ => c).
Proof. exists (fun _ n => Z.testbit c n). reflexivity. Qed.

Lemma bitwise_land (f h : Z -> Z) :
  bitwise f -> bitwise h -> bitwise (fun i => Z.land (f i) (h i)).
Proof.
  intros [gf Hf] [gh Hh]. exists (fun b n => gf b n && gh b n).
  intros i n Hn. now rewrite Z.land_spec, Hf, Hh.
Qed.

Lemma bitwise_lor (f h : Z -> Z) :
  bitwise f -> bitwise h -> bitwise (fun i => Z.lor (f i) (h i)).
Proof.
  intros [gf Hf] [gh Hh]. exists (fun b n => gf b n || gh b n).
  intros i n Hn. now rewrite Z.lor_spec, Hf, Hh.
Qed.

Lemma bitwise_ext (f h : Z -> Z) :
  bitwise f -> bitwise h -> f 0 = h 0 -> f (-1) = h (-1) ->
  forall i, f i = h i.
Proof.
  intros [gf Hf] [gh Hh] H0 H1 i. apply Z.bits_inj'. intros n Hn.
  rewrite Hf, Hh by assumption.
  destruct (Z.testbit i n).
  - rewrite <- (Z.bits_m1 n Hn), <- Hf, <- Hh by assumption.
    change (- (1)) with (-1). now rewrite H1.
  - rewrite <- (Z.bits_0 n), <- Hf, <- Hh by assumption. now rewrite H0.
Qed.

Create HintDb bitwise.
#[local] Hint Resolve bitwise_id bitwise_const bitwise_land bitwise_lor : bitwise.

(** ** The version stamp of [UUID.__init__] *)

Lemma set_version_stamp (version i : Z) :
  1 <= version <= 5 -> set_version version i = Returned (stamp version i).
Proof.
  intros Hv. unfold set_version.
  replace ((1 <=? version) && (version <=? 5)) with true; [reflexivity|].
  symmetry. apply andb_true_iff. split; apply Z.leb_le; lia.
Qed.

Lemma bitwise_stamp (version : Z) (f : Z -> Z) :
  bitwise f -> bitwise (fun i => stamp version (f i)).
Proof. intros Hf. unfold stamp. auto 10 with bitwise. Qed.

Lemma land_ones_128 (i : Z) : 0 <= i < 2 ^ 128 -> Z.land i (Z.ones 128) = i.
Proof. intros Hi. rewrite Z.land_ones by lia. apply Z.mod_small. exact Hi. Qed.

(** The stamp keeps a 128-bit value within 128 bits. *)
Lemma stamp_range (version i : Z) :
  version = 4 \/ version = 5 ->
  0 <= i < 2 ^ 128 -> 0 <= stamp version i < 2 ^ 128.
Proof.
  intros Hv Hi.
  assert (E : Z.land (stamp version (Z.land i (Z.ones 128))) (Z.ones 128)
              = stamp version (Z.land i (Z.ones 128))).
  { pattern i.
    apply (bitwise_ext
             (fun i => Z.land (stamp version (Z.land i (Z.ones 128))) (Z.ones 128))
             (fun i => stamp version (Z.land i (Z.ones 128)))).
    - auto 10 using bitwise_stamp with bitwise.
    - auto 10 using bitwise_stamp with bitwise.
    - destruct Hv; subst version; reflexivity.
    - destruct Hv; subst version; reflexivity. }
  rewrite (land_ones_128 i Hi) in E.
  rewrite <- E, Z.land_ones by lia. apply Z.mod_pos_bound. lia.
Qed.

(** Two 128-bit values get the same stamp exactly when they agree on the
    kept bits. *)
Lemma kept_bits_stamp (version i : Z) :
  version = 4 \/ version = 5 ->
  kept_bits (stamp version i) = kept_bits i.
Proof.
  intros Hv. unfold kept_bits. pattern i.
  apply (bitwise_ext (fun i => Z.land (stamp version i) KEPT)
                     (fun i => Z.land i KEPT)).
  - auto 10 using bitwise_stamp with bitwise.
  - auto 10 with bitwise.
  - destruct Hv; subst version; reflexivity.
  - destruct Hv; subst version; reflexivity.
Qed.

Lemma stamp_kept_bits (version i : Z) :
  version = 4 \/ version = 5 -> 0 <= i < 2 ^ 128 ->
  stamp version i = Z.lor (kept_bits i) (stamp version 0).
Proof.
  intros Hv Hi. rewrite <- (land_ones_128 i Hi) at 1.
  unfold kept_bits. pattern i.
  apply (bitwise_ext (fun i => stamp version (Z.land i (Z.ones 128)))
                     (fun i => Z.lor (Z.land i KEPT) (stamp version 0))).
  - auto 10 using bitwise_stamp with bitwise.
  - auto 10 with bitwise.
  - destruct Hv; subst version; reflexivity.
  - destruct Hv; subst version; reflexivity.
Qed.

Lemma stamp_eq_iff (version i j : Z) :
  version = 4 \/ version = 5 -> 0 <= i < 2 ^ 128 -> 0 <= j < 2 ^ 128 ->
  stamp version i = stamp version j <-> kept_bits i = kept_bits j.
Proof.
  intros Hv Hi Hj. split; intros H.
  - rewrite <- (kept_bits_stamp version i Hv), <- (kept_bits_stamp version j Hv).
    now rewrite H.
  - rewrite (stamp_kept_bits version i Hv Hi), (stamp_kept_bits version j Hv Hj).
    now rewrite H.
Qed.

(** ** Hexadecimal text *)

Lemma hex_digit_is_hex (d : Z) : 0 <= d < 16 -> is_hex_char (hex_digit d) = true.
Proof.
  intros Hd. unfold is_hex_char, hex_digit.
  destruct (d <? 10) eqn:E; [apply Z.ltb_lt in E | apply Z.ltb_ge in E].
  - apply orb_true_iff. left. apply andb_true_iff. split; apply Z.leb_le; lia.
  - apply orb_true_iff. right. apply andb_true_iff. split; apply Z.leb_le; lia.
Qed.

Lemma hex_digit_inj (d e : Z) :
  0 <= d < 16 -> 0 <= e < 16 -> hex_digit d = hex_digit e -> d = e.
Proof.
  unfold hex_digit. intros Hd He.
  destruct (d <? 10) eqn:E1; destruct (e <? 10) eqn:E2;
    try apply Z.ltb_lt in E1; try apply Z.ltb_ge in E1;
    try apply Z.ltb_lt in E2; try apply Z.ltb_ge in E2; lia.
Qed.

Lemma fixed_hex_length (k : nat) (n : Z) : length (fixed_hex k n) = k.
Proof.
  revert n. induction k as [|k IH]; intros n; simpl; [reflexivity|].
  rewrite length_app, IH. simpl. lia.
Qed.

Lemma fixed_hex_is_hex (k : nat) (n : Z) :
  forallb is_hex_char (fixed_hex k n) = true.
Proof.
  revert n. induction k as [|k IH]; intros n; simpl; [reflexivity|].
  rewrite forallb_app, IH. simpl.
  rewrite hex_digit_is_hex; [reflexivity | apply Z.mod_pos_bound; lia].
Qed.

Lemma fixed_hex_inj (k : nat) (n m : Z) :
  0 <= n < 16 ^ Z.of_nat k -> 0 <= m < 16 ^ Z.of_nat k ->
  fixed_hex k n = fixed_hex k m -> n = m.
Proof.
  revert n m. induction k as [|k IH]; intros n m Hn Hm H.
  - cbn in Hn, Hm. lia.
  - rewrite Nat2Z.inj_succ, Z.pow_succ_r in Hn, Hm by lia.
    simpl in H. apply app_inj_tail in H. destruct H as [Hq Hr].
    apply IH in Hq.
    + apply hex_digit_inj in Hr; try (apply Z.mod_pos_bound; lia).
      rewrite (Z.div_mod n 16), (Z.div_mod m 16) by lia. now rewrite Hq, Hr.
    + split; [apply Z.div_pos; lia | apply Z.div_lt_upper_bound; lia].
    + split; [apply Z.div_pos; lia | apply Z.div_lt_upper_bound; lia].
Qed.

Lemma fixed_hex_0 (k : nat) : fixed_hex k 0 = repeat 48 k.
Proof.
  induction k as [|k IH]; [reflexivity|].
  simpl fixed_hex. rewrite Z.div_0_l, IH by lia.
  change (hex_digit (0 mod 16)) with 48. now rewrite <- repeat_cons.
Qed.

Lemma fixed_hex_small (k : nat) (n : Z) :
  0 <= n < 16 -> fixed_hex (S k) n = repeat 48 k ++ [hex_digit n].
Proof.
  intros Hn. simpl fixed_hex.
  rewrite Z.div_small, Z.mod_small, fixed_hex_0 by lia. reflexivity.
Qed.

Lemma hex_digits_fixed (fuel : nat) :
  forall (n : Z) (acc : str) (k : nat),
    (0 < k)%nat -> 0 <= n < 16 ^ Z.of_nat fuel -> n < 16 ^ Z.of_nat k ->
    exists m, hex_digits fuel n acc = m ++ acc
              /\ (length m <= k)%nat
              /\ repeat 48 (k - length m) ++ m = fixed_hex k n.
Proof.
  induction fuel as [|fuel IH]; intros n acc k Kpos Hn Hk.
  - cbn in Hn. assert (n = 0) by lia. subst n. exists []. repeat split.
    + simpl. lia.
    + simpl. rewrite Nat.sub_0_r, app_nil_r. symmetry. apply fixed_hex_0.
  - destruct k as [|k]; [lia|]. simpl hex_digits.
    destruct (n / 16 =? 0) eqn:E.
    + apply Z.eqb_eq in E.
      assert (n < 16).
      { pose proof (Z.div_mod n 16 ltac:(lia)).
        pose proof (Z.mod_pos_bound n 16 ltac:(lia)). lia. }
      exists [hex_digit (n mod 16)]. repeat split.
      * simpl. lia.
      * simpl length. replace (S k - 1)%nat with k by lia.
        rewrite Z.mod_small by lia. symmetry. apply fixed_hex_small. lia.
    + apply Z.eqb_neq in E.
      rewrite Nat2Z.inj_succ, Z.pow_succ_r in Hn, Hk by lia.
      assert (K2 : (0 < k)%nat).
      { destruct k; [|lia]. cbn in Hk.
        assert (n / 16 = 0) by (apply Z.div_small; lia). lia. }
      destruct (IH (n / 16) (hex_digit (n mod 16) :: acc) k K2)
        as (m & Hm & Hl & Hf).
      * split; [apply Z.div_pos; lia | apply Z.div_lt_upper_bound; lia].
      * apply Z.div_lt_upper_bound; lia.
      * exists (m ++ [hex_digit (n mod 16)]). repeat split.
        -- rewrite Hm, <- app_assoc. reflexivity.
        -- rewrite length_app. simpl. lia.
        -- rewrite length_app. simpl length.
           replace (S k - (length m + 1))%nat with (k - length m)%nat by lia.
           simpl fixed_hex. rewrite <- Hf, <- app_assoc. reflexivity.
Qed.

Lemma hex_of_fuel (n : Z) : 0 <= n -> n < 16 ^ Z.of_nat (S (Z.to_nat (Z.log2 n))).
Proof.
  intros Hn. rewrite Nat2Z.inj_succ, Z2Nat.id by apply Z.log2_nonneg.
  destruct (Z.eq_dec n 0) as [->|Hz].
  - cbn. lia.
  - pose proof (Z.log2_spec n ltac:(lia)) as [_ Hlt].
    eapply Z.lt_le_trans; [exact Hlt|].
    apply Z.pow_le_mono_l. lia.
Qed.

(** ['%032x' % n] writes a 128-bit value on exactly 32 digits. *)
Lemma format_032x_fixed (n : Z) :
  0 <= n < 2 ^ 128 -> format_032x n = fixed_hex 32 n.
Proof.
  intros Hn. unfold format_032x.
  replace (n <? 0) with false by (symmetry; apply Z.ltb_ge; lia).
  unfold zero_pad, hex_of.
  destruct (hex_digits_fixed (S (Z.to_nat (Z.log2 n))) n [] 32) as (m & Hm & _ & Hf).
  - lia.
  - split; [lia | apply hex_of_fuel; lia].
  - change (16 ^ Z.of_nat 32) with (2 ^ 128). lia.
  - rewrite Hm, app_nil_r. exact Hf.
Qed.

(** ** The [UUID] class *)

Lemma regroup (h : str) :
  firstn 8 h ++ firstn 4 (skipn 8 h) ++ firstn 4 (skipn 12 h)
    ++ firstn 4 (skipn 16 h) ++ skipn 20 h = h.
Proof.
  change 20%nat with (4 + 16)%nat. rewrite <- (skipn_skipn 4 16 h), firstn_skipn.
  change 16%nat with (4 + 12)%nat. rewrite <- (skipn_skipn 4 12 h), firstn_skipn.
  change 12%nat with (4 + 8)%nat. rewrite <- (skipn_skipn 4 8 h), firstn_skipn.
  apply firstn_skipn.
Qed.

Lemma UUID_str_canonical (u : UUID) :
  0 <= int u < 2 ^ 128 -> canonical_uuid_text (UUID_str u).
Proof.
  intros Hu. unfold UUID_str. rewrite format_032x_fixed by assumption.
  pose proof (fixed_hex_length 32 (int u)) as Hl.
  pose proof (fixed_hex_is_hex 32 (int u)) as Hh.
  set (h := fixed_hex 32 (int u)) in *. clearbody h.
  exists (firstn 8 h), (firstn 4 (skipn 8 h)), (firstn 4 (skipn 12 h)),
    (firstn 4 (skipn 16 h)), (skipn 20 h).
  split; [reflexivity|]. repeat split.
  - rewrite length_firstn. lia.
  - rewrite length_firstn, length_skipn. lia.
  - rewrite length_firstn, length_skipn. lia.
  - rewrite length_firstn, length_skipn. lia.
  - rewrite length_skipn. lia.
  - rewrite regroup. exact Hh.
Qed.

Lemma UUID_str_inj (u v : UUID) :
  0 <= int u < 2 ^ 128 -> 0 <= int v < 2 ^ 128 ->
  UUID_str u = UUID_str v -> u = v.
Proof.
  intros Hu Hv H. destruct u as [n], v as [m]. simpl in Hu, Hv. f_equal.
  apply (fixed_hex_inj 32); [assumption | assumption |].
  unfold UUID_str in H. simpl int in H.
  rewrite !format_032x_fixed in H by assumption.
  pose proof (fixed_hex_length 32 n) as Ln.
  pose proof (fixed_hex_length 32 m) as Lm.
  set (a := fixed_hex 32 n) in *. set (b := fixed_hex 32 m) in *.
  clearbody a b.
  do 32 (destruct a as [|? a]; [discriminate Ln|]).
  destruct a; [|discriminate Ln].
  do 32 (destruct b as [|? b]; [discriminate Lm|]).
  destruct b; [|discriminate Lm].
  cbn in H. congruence.
Qed.

Lemma UUID_bytes_16 (bs : bytes) (version : Z) :
  length bs = 16%nat -> version = 4 \/ version = 5 ->
  UUID_bytes bs version = Returned (mkUUID (stamp version (int_from_bytes bs))).
Proof.
  intros Hl Hv. unfold UUID_bytes. rewrite Hl. simpl negb. cbv iota.
  pose proof (int_from_bytes_range bs) as Hr. rewrite Hl in Hr.
  change (256 ^ Z.of_nat 16) with (2 ^ 128) in Hr.
  unfold check_int. change (Z.shiftl 1 128) with (2 ^ 128).
  replace ((0 <=? int_from_bytes bs) && (int_from_bytes bs <? 2 ^ 128)) with true.
  - simpl. rewrite set_version_stamp by lia. reflexivity.
  - symmetry. apply andb_true_iff. split; [apply Z.leb_le | apply Z.ltb_lt]; lia.
Qed.

Lemma UUID_bytes_other_length (bs : bytes) (version : Z) :
  length bs <> 16%nat ->
  UUID_bytes bs version = Raised (ValueError "bytes is not a 16-char string").
Proof.
  intros Hl. unfold UUID_bytes.
  apply Nat.eqb_neq in Hl. rewrite Hl. reflexivity.
Qed.

Lemma NAMESPACE_parsed :
  UUID_hex (lit "41010b5d-5447-4df5-baf2-97d69f2e9d06") = Returned NAMESPACE.
Proof. vm_compute. reflexivity. Qed.

(** ** The UTF-8 codec *)

Lemma lor_disjoint (a k b : Z) :
  0 <= k -> 0 <= b < 2 ^ k -> Z.lor (a * 2 ^ k) b = a * 2 ^ k + b.
Proof.
  intros Hk Hb. rewrite <- Z.add_lor_land.
  replace (Z.land (a * 2 ^ k) b) with 0; [lia|].
  symmetry. apply Z.bits_inj'. intros n Hn.
  rewrite Z.land_spec, Z.bits_0.
  destruct (Z.lt_ge_cases n k) as [Hlt|Hge].
  - rewrite Z.mul_pow2_bits_low by lia. reflexivity.
  - rewrite <- (Z.mod_small b (2 ^ k)) by lia.
    rewrite Z.mod_pow2_bits_high by lia. apply andb_false_r.
Qed.

Lemma Z_of_continuation (x : Z) : Z_of_byte (continuation x) = 128 + x mod 64.
Proof.
  unfold continuation. rewrite Z_of_byte_of_Z.
  change 0x3f with (Z.ones 6). rewrite Z.land_ones by lia.
  pose proof (Z.mod_pos_bound x 64 ltac:(lia)) as Hm.
  change 0x80 with (2 * 2 ^ 6).
  rewrite lor_disjoint; [| lia | exact Hm].
  change (2 ^ 6) with 64. apply Z.mod_small. lia.
Qed.

Lemma Z_of_lead (tag k x : Z) :
  0 <= k -> 0 <= x < 2 ^ k -> 0 <= tag -> tag * 2 ^ k + 2 ^ k <= 256 ->
  Z_of_byte (byte_of_Z (Z.lor (tag * 2 ^ k) x)) = tag * 2 ^ k + x.
Proof.
  intros Hk Hx Ht Hb. rewrite Z_of_byte_of_Z, lor_disjoint by assumption.
  apply Z.mod_small. lia.
Qed.

Lemma utf8_encode_char_bytes (ch : Z) :
  code_point ch -> map Z_of_byte (utf8_encode_char ch) = char_bytes ch.
Proof.
  unfold code_point, MAX_UNICODE, utf8_encode_char, char_bytes. intros Hc.
  destruct (ch <? 0x80) eqn:E1; [apply Z.ltb_lt in E1 | apply Z.ltb_ge in E1].
  { cbn [map]. rewrite Z_of_byte_of_Z, Z.mod_small by lia. reflexivity. }
  destruct (ch <? 0x800) eqn:E2; [apply Z.ltb_lt in E2 | apply Z.ltb_ge in E2].
  { cbn [map]. rewrite Z_of_continuation, Z.shiftr_div_pow2 by lia.
    change 0xc0 with (3 * 2 ^ 6). rewrite Z_of_lead; try lia.
    - reflexivity.
    - change (2 ^ 6) with 64. Z.div_mod_to_equations. lia. }
  destruct (ch <? 0x10000) eqn:E3; [apply Z.ltb_lt in E3 | apply Z.ltb_ge in E3].
  { cbn [map]. rewrite !Z_of_continuation, !Z.shiftr_div_pow2 by lia.
    change 0xe0 with (7 * 2 ^ 5). rewrite Z_of_lead; try lia.
    - reflexivity.
    - change (2 ^ 12) with 4096. change (2 ^ 5) with 32.
      Z.div_mod_to_equations. lia. }
  cbn [map]. rewrite !Z_of_continuation, !Z.shiftr_div_pow2 by lia.
  change 0xf0 with (15 * 2 ^ 4). rewrite Z_of_lead; try lia.
  - reflexivity.
  - change (2 ^ 18) with 262144. change (2 ^ 4) with 16.
    Z.div_mod_to_equations. lia.
Qed.

Lemma map_Z_of_byte_inj (xs ys : bytes) :
  map Z_of_byte xs = map Z_of_byte ys -> xs = ys.
Proof.
  revert ys. induction xs as [|x xs IH]; intros [|y ys] H; try discriminate.
  - reflexivity.
  - injection H as Hx Hr. f_equal; [now apply Z_of_byte_inj | now apply IH].
Qed.

Lemma cons_eq {A} (x y : A) (xs ys : list A) :
  x :: xs = y :: ys -> x = y /\ xs = ys.
Proof. intros H. now injection H. Qed.

(** A code point is read back from the front of its encoding: the first byte
    tells how many bytes follow. *)
Lemma utf8_encode_char_inj (c1 c2 : Z) (r1 r2 : bytes) :
  code_point c1 -> code_point c2 ->
  utf8_encode_char c1 ++ r1 = utf8_encode_char c2 ++ r2 ->
  c1 = c2 /\ r1 = r2.
Proof.
  intros H1 H2 H. apply (f_equal (map Z_of_byte)) in H.
  rewrite !map_app, !utf8_encode_char_bytes in H by assumption.
  unfold code_point, MAX_UNICODE in H1, H2. unfold char_bytes in H.
  destruct (c1 <? 0x80) eqn:A1; [apply Z.ltb_lt in A1 | apply Z.ltb_ge in A1];
  [| destruct (c1 <? 0x800) eqn:A2;
     [apply Z.ltb_lt in A2 | apply Z.ltb_ge in A2];
   [| destruct (c1 <? 0x10000) eqn:A3;
      [apply Z.ltb_lt in A3 | apply Z.ltb_ge in A3]]];
  (destruct (c2 <? 0x80) eqn:B1; [apply Z.ltb_lt in B1 | apply Z.ltb_ge in B1];
   [| destruct (c2 <? 0x800) eqn:B2;
      [apply Z.ltb_lt in B2 | apply Z.ltb_ge in B2];
    [| destruct (c2 <? 0x10000) eqn:B3;
       [apply Z.ltb_lt in B3 | apply Z.ltb_ge in B3]]]);
  cbn [app] in H;
  repeat match goal with
         | E : _ :: _ = _ :: _ |- _ => apply cons_eq in E; destruct E
         end;
  try (exfalso; Z.div_mod_to_equations; lia);
  (split; [Z.div_mod_to_equations; lia | now apply map_Z_of_byte_inj]).
Qed.

Lemma utf8_encode_char_nonempty (ch : Z) : utf8_encode_char ch <> [].
Proof.
  unfold utf8_encode_char.
  destruct (ch <? 0x80); [discriminate|].
  destruct (ch <? 0x800); [discriminate|].
  destruct (ch <? 0x10000); discriminate.
Qed.

Lemma utf8_encode_from_cons (i : nat) (ch : Z) (s : str) (b : bytes) :
  utf8_encode_from i (ch :: s) = Returned b ->
  is_surrogate ch = false /\
  exists rest, utf8_encode_from (S i) s = Returned rest
               /\ b = utf8_encode_char ch ++ rest.
Proof.
  simpl. destruct (is_surrogate ch); [discriminate|].
  destruct (utf8_encode_from (S i) s) as [rest|e]; simpl; [|discriminate].
  intros H. injection H as <-. split; [reflexivity|]. now exists rest.
Qed.

(** The encoder succeeds exactly on the strings free of surrogates. *)
Lemma utf8_encode_from_encodable (s : str) :
  forall i, encodable s -> exists b, utf8_encode_from i s = Returned b.
Proof.
  induction s as [|ch s IH]; intros i He.
  - now exists [].
  - inversion He as [|? ? Hc Hs]; subst.
    destruct (IH (S i) Hs) as [rest Hr].
    exists (utf8_encode_char ch ++ rest). simpl. now rewrite Hc, Hr.
Qed.

Lemma utf8_encode_from_returned (s : str) :
  forall i b, utf8_encode_from i s = Returned b -> encodable s.
Proof.
  induction s as [|ch s IH]; intros i b H.
  - constructor.
  - apply utf8_encode_from_cons in H. destruct H as [Hc (rest & Hr & _)].
    constructor; [exact Hc | exact (IH _ _ Hr)].
Qed.

Lemma utf8_encode_from_first_surrogate (pre : str) (ch : Z) (post : str) :
  forall i, encodable pre -> is_surrogate ch = true ->
  utf8_encode_from i (pre ++ ch :: post)
  = Raised (UnicodeEncodeError (i + length pre) ch).
Proof.
  induction pre as [|c pre IH]; intros i Hp Hc.
  - simpl. rewrite Hc. now rewrite Nat.add_0_r.
  - inversion Hp as [|? ? Hc0 Hp']; subst. simpl.
    rewrite Hc0, (IH (S i) Hp' Hc). simpl. f_equal. f_equal. lia.
Qed.

(** Different strings have different encodings. *)
Lemma utf8_encode_from_inj (s1 : str) :
  forall s2 i j b,
    well_formed s1 -> well_formed s2 ->
    utf8_encode_from i s1 = Returned b -> utf8_encode_from j s2 = Returned b ->
    s1 = s2.
Proof.
  induction s1 as [|c1 s1 IH]; intros [|c2 s2] i j b W1 W2 E1 E2.
  - reflexivity.
  - simpl in E1. injection E1 as <-.
    apply utf8_encode_from_cons in E2. destruct E2 as [_ (rest & _ & Hb)].
    symmetry in Hb. apply app_eq_nil in Hb.
    now destruct (utf8_encode_char_nonempty c2).
  - simpl in E2. injection E2 as <-.
    apply utf8_encode_from_cons in E1. destruct E1 as [_ (rest & _ & Hb)].
    symmetry in Hb. apply app_eq_nil in Hb.
    now destruct (utf8_encode_char_nonempty c1).
  - apply utf8_encode_from_cons in E1. destruct E1 as [_ (r1 & R1 & B1)].
    apply utf8_encode_from_cons in E2. destruct E2 as [_ (r2 & R2 & B2)].
    inversion W1 as [|? ? C1 W1']; subst.
    inversion W2 as [|? ? C2 W2']. subst.
    match goal with H : _ ++ _ = _ ++ _ |- _ =>
      apply utf8_encode_char_inj in H; try assumption; destruct H as [-> ->]
    end.
    f_equal. exact (IH s2 _ _ _ W1' W2' R1 R2).
Qed.

(** ** [get_thread_id], branch by branch *)

(** What the present branch computes, as a function of the session id. *)
Lemma get_thread_id_present (s : str) :
  get_thread_id (Some s)
  = lift (outcome_bind (uuid5 NAMESPACE s) (fun u => Returned (UUID_str u))).
Proof.
  unfold get_thread_id. rewrite NAMESPACE_parsed. cbn [lift bind].
  destruct (uuid5 NAMESPACE s); reflexivity.
Qed.

Lemma exec_lift {World} (answer : forall X, Call X -> World -> outcome X * World)
    {A} (o : outcome A) (w : World) :
  exec answer (lift o) w = (o, w, []).
Proof. destruct o; reflexivity. Qed.

Lemma exec_get_thread_id_present {World}
    (answer : forall X, Call X -> World -> outcome X * World) (s : str) (w : World) :
  exec answer (get_thread_id (Some s)) w = (derived s, w, []).
Proof. rewrite get_thread_id_present. apply exec_lift. Qed.

Lemma exec_get_thread_id_absent {World}
    (answer : forall X, Call X -> World -> outcome X * World) (w : World) :
  exec answer (get_thread_id None) w
  = match answer _ (os_urandom 16) w with
    | (Returned random, w') => (drawn random, w', [Called (os_urandom 16)])
    | (Raised e, w') => (Raised e, w', [Called (os_urandom 16)])
    end.
Proof.
  unfold get_thread_id. rewrite NAMESPACE_parsed. cbn [lift bind].
  unfold uuid4, call. cbn [bind exec].
  destruct (answer bytes (os_urandom 16) w) as [[random|e] w']; [|reflexivity].
  unfold drawn. destruct (UUID_bytes random 4); reflexivity.
Qed.

Lemma UUID_bytes_range (bs : bytes) (version : Z) (u : UUID) :
  version = 4 \/ version = 5 ->
  UUID_bytes bs version = Returned u -> 0 <= int u < 2 ^ 128.
Proof.
  intros Hv H. destruct (Nat.eq_dec (length bs) 16) as [Hl|Hl].
  - rewrite UUID_bytes_16 in H by assumption. injection H as <-. simpl.
    apply stamp_range; [assumption|].
    pose proof (int_from_bytes_range bs) as Hr. rewrite Hl in Hr. exact Hr.
  - rewrite UUID_bytes_other_length in H by assumption. discriminate.
Qed.

Lemma digest_prefix_length (msg : bytes) : length (firstn 16 (SHA1.digest msg)) = 16%nat.
Proof. rewrite length_firstn, digest_length. reflexivity. Qed.

Lemma derived_encoded (s : str) (encoded : bytes) :
  utf8_encode s = Returned encoded ->
  derived s
  = Returned (UUID_str (mkUUID (stamp 5 (int_from_bytes
                                  (firstn 16 (SHA1.digest (hashed encoded))))))).
Proof.
  intros H. unfold derived, uuid5. rewrite H. cbn [outcome_bind].
  rewrite UUID_bytes_16 by (auto using digest_prefix_length). reflexivity.
Qed.

Lemma derived_raised (s : str) (e : exn) :
  utf8_encode s = Raised e -> derived s = Raised e.
Proof. intros H. unfold derived, uuid5. now rewrite H. Qed.

Lemma derived_returned (s : str) (out : str) :
  derived s = Returned out ->
  exists encoded, utf8_encode s = Returned encoded.
Proof.
  intros H. destruct (utf8_encode s) as [encoded|e] eqn:E.
  - now exists encoded.
  - rewrite (derived_raised s e E) in H. discriminate.
Qed.

Lemma drawn_16 (random : bytes) :
  length random = 16%nat ->
  drawn random = Returned (UUID_str (mkUUID (stamp 4 (int_from_bytes random)))).
Proof.
  intros Hl. unfold drawn. rewrite UUID_bytes_16 by auto. reflexivity.
Qed.

(** ** Counting the draws that collide *)

Ltac bitwise_in i :=
  match goal with
  | |- ?L = ?R =>
      let fL := eval pattern i in L in
      let fR := eval pattern i in R in
      match fL with
      | ?f _ =>
          match fR with
          | ?g _ =>
              apply (bitwise_ext f g);
              [ auto 12 with bitwise | auto 12 with bitwise
              | vm_compute; reflexivity | vm_compute; reflexivity ]
          end
      end
  end.

Lemma land_pow2 (j b : Z) :
  0 <= b -> Z.land j (2 ^ b) = if Z.testbit j b then 2 ^ b else 0.
Proof.
  intros Hb. apply Z.bits_inj'. intros n Hn.
  rewrite Z.land_spec, Z.pow2_bits_eqb by assumption.
  destruct (Z.eqb_spec b n) as [->|Hne].
  - destruct (Z.testbit j n) eqn:E.
    + rewrite Z.pow2_bits_true by assumption. reflexivity.
    + now rewrite Z.bits_0.
  - rewrite andb_false_r. destruct (Z.testbit j b).
    + rewrite Z.pow2_bits_false by assumption. reflexivity.
    + now rewrite Z.bits_0.
Qed.

Lemma lost_bits_split (j : Z) :
  Z.land j LOST
  = Z.lor (Z.land j (2 ^ 62))
      (Z.lor (Z.land j (2 ^ 63))
         (Z.lor (Z.land j (2 ^ 76))
            (Z.lor (Z.land j (2 ^ 77))
               (Z.lor (Z.land j (2 ^ 78)) (Z.land j (2 ^ 79)))))).
Proof. bitwise_in j. Qed.

Lemma lost_bits_pattern (j : Z) : In (Z.land j LOST) lost_patterns.
Proof.
  assert (H : existsb (Z.eqb (Z.land j LOST)) lost_patterns = true).
  { rewrite lost_bits_split, !land_pow2 by lia.
    destruct (Z.testbit j 62), (Z.testbit j 63), (Z.testbit j 76),
      (Z.testbit j 77), (Z.testbit j 78), (Z.testbit j 79);
      vm_compute; reflexivity. }
  apply existsb_exists in H. destruct H as (k & Hk & E).
  apply Z.eqb_eq in E. now rewrite E.
Qed.

Lemma kept_lost_split (j : Z) :
  0 <= j < 2 ^ 128 -> j = Z.lor (kept_bits j) (Z.land j LOST).
Proof.
  intros Hj. rewrite <- (land_ones_128 j Hj) at 1. unfold kept_bits.
  bitwise_in j.
Qed.

(** Writing a pattern of lost bits over kept bits stays within 128 bits,
    leaves the kept bits alone and can be read back. *)
Lemma lost_patterns_overlay :
  Forall (fun k => forall i,
              Z.land (Z.lor (Z.land i KEPT) k) (Z.ones 128)
              = Z.lor (Z.land i KEPT) k
              /\ Z.land (Z.lor (Z.land i KEPT) k) KEPT = Z.land i KEPT
              /\ Z.land (Z.lor (Z.land i KEPT) k) LOST = k)
         lost_patterns.
Proof.
  let l := eval vm_compute in lost_patterns in change lost_patterns with l.
  repeat (apply Forall_cons;
          [intros i; split; [|split]; bitwise_in i|]).
  apply Forall_nil.
Qed.

Lemma overlay_range (i k : Z) :
  In k lost_patterns -> 0 <= Z.lor (kept_bits i) k < 2 ^ 128.
Proof.
  intros Hk. pose proof lost_patterns_overlay as F.
  rewrite Forall_forall in F. destruct (F k Hk i) as (H1 & _ & _).
  unfold kept_bits. rewrite <- H1, Z.land_ones by lia.
  apply Z.mod_pos_bound. lia.
Qed.

Lemma distinct_NoDup (l : list Z) : distinct l = true -> NoDup l.
Proof.
  induction l as [|x l IH]; intros H; constructor;
    simpl in H; apply andb_true_iff in H; destruct H as [Hx Hl].
  - intros Hin. apply negb_true_iff in Hx.
    assert (E : existsb (Z.eqb x) l = true).
    { apply existsb_exists. exists x. split; [exact Hin | apply Z.eqb_refl]. }
    congruence.
  - exact (IH Hl).
Qed.

Lemma int_to_from_bytes (bs : bytes) :
  int_to_bytes (length bs) (int_from_bytes bs) = bs.
Proof.
  apply int_from_bytes_inj.
  - apply int_to_bytes_length.
  - apply int_from_to_bytes. apply int_from_bytes_range.
Qed.

(** Of all sixteen-byte draws, the 64 of [colliding_draws draw1], and no
    others, agree with [draw1] on the kept bits. *)
Lemma colliding_draws_spec (draw1 : bytes) :
  length (colliding_draws draw1) = 64%nat
  /\ NoDup (colliding_draws draw1)
  /\ forall draw2,
       length draw2 = 16%nat ->
       (kept_bits (int_from_bytes draw2) = kept_bits (int_from_bytes draw1)
        <-> In draw2 (colliding_draws draw1)).
Proof.
  pose proof lost_patterns_overlay as F. rewrite Forall_forall in F.
  split; [|split].
  - unfold colliding_draws, lost_patterns. rewrite !length_map. apply length_seq.
  - unfold colliding_draws. apply NoDup_map_NoDup_ForallPairs.
    + intros k1 k2 H1 H2 E. apply (f_equal int_from_bytes) in E.
      rewrite !int_from_to_bytes in E by (now apply overlay_range).
      destruct (F k1 H1 (int_from_bytes draw1)) as (_ & _ & G1).
      destruct (F k2 H2 (int_from_bytes draw1)) as (_ & _ & G2).
      unfold kept_bits in E. rewrite E in G1. congruence.
    + apply distinct_NoDup. vm_compute. reflexivity.
  - intros draw2 L2. unfold colliding_draws. rewrite in_map_iff.
    pose proof (int_from_bytes_range draw2) as R2. rewrite L2 in R2.
    change (256 ^ Z.of_nat 16) with (2 ^ 128) in R2.
    split.
    + intros Hk. exists (Z.land (int_from_bytes draw2) LOST).
      split; [|apply lost_bits_pattern].
      rewrite <- Hk, <- (kept_lost_split _ R2), <- L2.
      apply int_to_from_bytes.
    + intros (k & <- & Hk).
      rewrite int_from_to_bytes by (now apply overlay_range).
      destruct (F k Hk (int_from_bytes draw1)) as (_ & H2 & _). exact H2.
Qed.

Lemma drawn_eq_iff (draw1 draw2 : bytes) :
  length draw1 = 16%nat -> length draw2 = 16%nat ->
  (drawn draw2 = drawn draw1
   <-> kept_bits (int_from_bytes draw2) = kept_bits (int_from_bytes draw1)).
Proof.
  intros L1 L2. rewrite !drawn_16 by assumption.
  pose proof (int_from_bytes_range draw1) as B1.
  pose proof (int_from_bytes_range draw2) as B2.
  rewrite L1 in B1. rewrite L2 in B2.
  change (256 ^ Z.of_nat 16) with (2 ^ 128) in B1, B2.
  rewrite <- (stamp_eq_iff 4) by auto. split; intros H.
  - injection H as H. apply UUID_str_inj in H; try (simpl; apply stamp_range; auto).
    now injection H.
  - now rewrite H.
Qed.

(** ** The thread identifier *)

(** C1.  With a session id present, [get_thread_id] is a function of the
    namespace constant and the session id alone: whatever the world it runs
    in, and however often, it gives the same outcome, namely [derived s]. *)
Theorem get_thread_id_deterministic :
  forall (s : str) (W1 W2 : Type)
         (a1 : forall X, Call X -> W1 -> outcome X * W1)
         (a2 : forall X, Call X -> W2 -> outcome X * W2)
         (w1 : W1) (w2 : W2),
    result a1 (get_thread_id (Some s)) w1 = result a2 (get_thread_id (Some s)) w2
    /\ result a1 (get_thread_id (Some s)) w1 = derived s
    /\ result a1 (get_thread_id (Some s))
         (world_after a1 (get_thread_id (Some s)) w1) = derived s.
Proof.
  intros. unfold result, world_after.
  repeat (rewrite exec_get_thread_id_present; cbn [fst snd]). auto.
Qed.

(** C2.  When [get_thread_id] returns identifiers for two different session
    ids, the two are hashed as different messages, and the identifiers are
    equal exactly when SHA-1 of those messages agrees on the 122 bits that
    the identifier keeps: short of such a collision the outputs differ. *)
Theorem get_thread_id_injective_up_to_collision :
  forall (s1 s2 out1 out2 : str) (W1 W2 : Type)
         (a1 : forall X, Call X -> W1 -> outcome X * W1)
         (a2 : forall X, Call X -> W2 -> outcome X * W2)
         (w1 : W1) (w2 : W2),
    well_formed s1 -> well_formed s2 -> s1 <> s2 ->
    result a1 (get_thread_id (Some s1)) w1 = Returned out1 ->
    result a2 (get_thread_id (Some s2)) w2 = Returned out2 ->
    exists e1 e2,
      utf8_encode s1 = Returned e1 /\ utf8_encode s2 = Returned e2
      /\ hashed e1 <> hashed e2
      /\ (out1 = out2 <-> digest_bits (hashed e1) = digest_bits (hashed e2))
      /\ (digest_bits (hashed e1) <> digest_bits (hashed e2) -> out1 <> out2).
Proof.
  intros s1 s2 out1 out2 W1 W2 a1 a2 w1 w2 Wf1 Wf2 Hne R1 R2.
  unfold result in R1, R2.
  rewrite exec_get_thread_id_present in R1.
  rewrite exec_get_thread_id_present in R2.
  cbn [fst] in R1, R2.
  destruct (derived_returned _ _ R1) as [e1 E1].
  destruct (derived_returned _ _ R2) as [e2 E2].
  exists e1, e2. split; [exact E1|]. split; [exact E2|].
  rewrite (derived_encoded _ _ E1) in R1. rewrite (derived_encoded _ _ E2) in R2.
  injection R1 as <-. injection R2 as <-.
  assert (Hm : hashed e1 <> hashed e2).
  { unfold hashed. intros H. apply app_inv_head in H. subst e2.
    apply Hne. exact (utf8_encode_from_inj s1 s2 _ _ _ Wf1 Wf2 E1 E2). }
  assert (Hiff : UUID_str (mkUUID (stamp 5 (int_from_bytes
                    (firstn 16 (SHA1.digest (hashed e1))))))
                 = UUID_str (mkUUID (stamp 5 (int_from_bytes
                    (firstn 16 (SHA1.digest (hashed e2))))))
                 <-> digest_bits (hashed e1) = digest_bits (hashed e2)).
  { pose proof (int_from_bytes_range (firstn 16 (SHA1.digest (hashed e1)))) as B1.
    pose proof (int_from_bytes_range (firstn 16 (SHA1.digest (hashed e2)))) as B2.
    rewrite digest_prefix_length in B1, B2.
    change (256 ^ Z.of_nat 16) with (2 ^ 128) in B1, B2.
    unfold digest_bits.
    rewrite <- (stamp_eq_iff 5) by auto.
    split; intros H.
    - apply UUID_str_inj in H; try (simpl; apply stamp_range; auto).
      now injection H.
    - now rewrite H. }
  split; [exact Hm|]. split; [exact Hiff|].
  intros Hd Heq. apply Hd. now apply Hiff.
Qed.

(** C3.  With the session id absent, two derivations in a row each draw
    sixteen bytes of their own from the entropy source, and the identifiers
    they return are equal exactly when the two draws agree on all the 122
    bits that the identifier keeps: they differ whenever the draws differ
    there.  Of the 2^128 draws the second derivation can get, exactly 64
    give the first identifier again. *)
Theorem get_thread_id_fresh :
  forall (World : Type) (answer : forall X, Call X -> World -> outcome X * World)
         (w : World),
    urandom_contract answer ->
    exists (draw1 draw2 : bytes) (w1 w2 : World) (out1 out2 : str),
      answer _ (os_urandom 16) w = (Returned draw1, w1)
      /\ answer _ (os_urandom 16) w1 = (Returned draw2, w2)
      /\ exec answer (get_thread_id None) w
         = (Returned out1, w1, [Called (os_urandom 16)])
      /\ exec answer (get_thread_id None) w1
         = (Returned out2, w2, [Called (os_urandom 16)])
      /\ (out2 = out1 <->
          kept_bits (int_from_bytes draw2) = kept_bits (int_from_bytes draw1))
      /\ (kept_bits (int_from_bytes draw2) <> kept_bits (int_from_bytes draw1) ->
          out2 <> out1)
      /\ exists colliding : list bytes,
          length colliding = 64%nat /\ NoDup colliding
          /\ forall draw, length draw = 16%nat ->
                          (drawn draw = Returned out1 <-> In draw colliding).
Proof.
  intros World answer w Hu.
  destruct (Hu 16%nat w) as (draw1 & w1 & A1 & L1).
  destruct (Hu 16%nat w1) as (draw2 & w2 & A2 & L2).
  exists draw1, draw2, w1, w2,
    (UUID_str (mkUUID (stamp 4 (int_from_bytes draw1)))),
    (UUID_str (mkUUID (stamp 4 (int_from_bytes draw2)))).
  split; [exact A1|]. split; [exact A2|].
  split; [rewrite exec_get_thread_id_absent, A1, drawn_16 by assumption;
          reflexivity|].
  split; [rewrite exec_get_thread_id_absent, A2, drawn_16 by assumption;
          reflexivity|].
  pose proof (drawn_eq_iff draw1 draw2 L1 L2) as Hiff.
  rewrite !drawn_16 in Hiff by assumption.
  assert (Hiff' : UUID_str (mkUUID (stamp 4 (int_from_bytes draw2)))
                  = UUID_str (mkUUID (stamp 4 (int_from_bytes draw1)))
                  <-> kept_bits (int_from_bytes draw2)
                      = kept_bits (int_from_bytes draw1)).
  { rewrite <- Hiff. split; intros H; [now rewrite H | now injection H]. }
  split; [exact Hiff'|].
  split; [intros Hd Heq; apply Hd; now apply Hiff'|].
  destruct (colliding_draws_spec draw1) as (Hl & Hn & Hc).
  exists (colliding_draws draw1). split; [exact Hl|]. split; [exact Hn|].
  intros draw Ld. rewrite <- (Hc draw Ld), <- (drawn_eq_iff draw1 draw L1 Ld).
  now rewrite (drawn_16 draw1 L1).
Qed.

Lemma sim_urandom_contract : urandom_contract Sim.answer.
Proof.
  intros n w. eexists. eexists. split; [reflexivity|].
  rewrite length_map. apply length_seq.
Qed.

Lemma sim_prints_succeed : prints_succeed Sim.answer.
Proof. intros line w. eexists. reflexivity. Qed.

Lemma lit_well_formed (s : string) : well_formed (lit s).
Proof.
  induction s as [|a s IH]; constructor; [|exact IH].
  unfold code_point, MAX_UNICODE.
  pose proof (N_ascii_bounded a). lia.
Qed.

Lemma lit_encodable (s : string) : encodable (lit s).
Proof.
  induction s as [|a s IH]; constructor; [|exact IH].
  unfold is_surrogate. pose proof (N_ascii_bounded a).
  apply andb_false_iff. left. apply Z.leb_gt. lia.
Qed.

(** The hypotheses of [get_thread_id_injective_up_to_collision] hold for the
    session ids "abc123" and "abc124", whose identifiers differ. *)
Lemma get_thread_id_injective_witness :
  well_formed (lit "abc123") /\ well_formed (lit "abc124")
  /\ lit "abc123" <> lit "abc124"
  /\ result Sim.answer (get_thread_id (Some (lit "abc123"))) Sim.initial
     = Returned (lit "0d578a70-6e15-559e-84db-77e9d0956ee9")
  /\ result Sim.answer (get_thread_id (Some (lit "abc124"))) Sim.initial
     = Returned (lit "5fd41159-ffa3-5752-8bb6-7f316c8ce3d3")
  /\ exists e1 e2,
      utf8_encode (lit "abc123") = Returned e1
      /\ utf8_encode (lit "abc124") = Returned e2
      /\ hashed e1 <> hashed e2
      /\ (lit "0d578a70-6e15-559e-84db-77e9d0956ee9"
          = lit "5fd41159-ffa3-5752-8bb6-7f316c8ce3d3"
          <-> digest_bits (hashed e1) = digest_bits (hashed e2))
      /\ (digest_bits (hashed e1) <> digest_bits (hashed e2) ->
          lit "0d578a70-6e15-559e-84db-77e9d0956ee9"
          <> lit "5fd41159-ffa3-5752-8bb6-7f316c8ce3d3").
Proof.
  assert (W1 := lit_well_formed "abc123").
  assert (W2 := lit_well_formed "abc124").
  assert (N : lit "abc123" <> lit "abc124") by discriminate.
  assert (R1 : result Sim.answer (get_thread_id (Some (lit "abc123"))) Sim.initial
               = Returned (lit "0d578a70-6e15-559e-84db-77e9d0956ee9"))
    by (vm_compute; reflexivity).
  assert (R2 : result Sim.answer (get_thread_id (Some (lit "abc124"))) Sim.initial
               = Returned (lit "5fd41159-ffa3-5752-8bb6-7f316c8ce3d3"))
    by (vm_compute; reflexivity).
  repeat (split; [assumption|]).
  exact (get_thread_id_injective_up_to_collision _ _ _ _ _ _ _ _ _ _
           W1 W2 N R1 R2).
Defined.

(** The simulated world honours the entropy contract, and two derivations
    in a row there return two different identifiers. *)
Lemma get_thread_id_fresh_witness :
  urandom_contract Sim.answer
  /\ exists (draw1 draw2 : bytes) (w1 w2 : Sim.World) (out1 out2 : str),
      Sim.answer _ (os_urandom 16) Sim.initial = (Returned draw1, w1)
      /\ Sim.answer _ (os_urandom 16) w1 = (Returned draw2, w2)
      /\ exec Sim.answer (get_thread_id None) Sim.initial
         = (Returned out1, w1, [Called (os_urandom 16)])
      /\ exec Sim.answer (get_thread_id None) w1
         = (Returned out2, w2, [Called (os_urandom 16)])
      /\ (out2 = out1 <->
          kept_bits (int_from_bytes draw2) = kept_bits (int_from_bytes draw1))
      /\ (kept_bits (int_from_bytes draw2) <> kept_bits (int_from_bytes draw1) ->
          out2 <> out1)
      /\ exists colliding : list bytes,
          length colliding = 64%nat /\ NoDup colliding
          /\ forall draw, length draw = 16%nat ->
                          (drawn draw = Returned out1 <-> In draw colliding).
Proof.
  split; [exact sim_urandom_contract|].
  exact (get_thread_id_fresh Sim.World Sim.answer Sim.initial sim_urandom_contract).
Defined.

Lemma derived_range (s out : str) :
  derived s = Returned out ->
  exists u, out = UUID_str u /\ 0 <= int u < 2 ^ 128.
Proof.
  unfold derived, uuid5. intros H.
  destruct (utf8_encode s) as [encoded|e]; [|discriminate]. cbn [outcome_bind] in H.
  destruct (UUID_bytes _ 5) as [u|e] eqn:E; [|discriminate].
  injection H as <-. exists u. split; [reflexivity|].
  exact (UUID_bytes_range _ 5 u (or_intror eq_refl) E).
Qed.

Lemma drawn_range (random : bytes) (out : str) :
  drawn random = Returned out ->
  exists u, out = UUID_str u /\ 0 <= int u < 2 ^ 128.
Proof.
  unfold drawn. intros H.
  destruct (UUID_bytes random 4) as [u|e] eqn:E; [|discriminate].
  injection H as <-. exists u. split; [reflexivity|].
  exact (UUID_bytes_range _ 4 u (or_introl eq_refl) E).
Qed.

(** With a session id free of surrogates [get_thread_id] returns, and makes
    no call on the way. *)
Lemma get_thread_id_present_returns {World}
    (answer : forall X, Call X -> World -> outcome X * World) (s : str) (w : World) :
  encodable s ->
  exists out, exec answer (get_thread_id (Some s)) w = (Returned out, w, []).
Proof.
  intros He. destruct (utf8_encode_from_encodable s 0 He) as [encoded E].
  rewrite exec_get_thread_id_present, (derived_encoded s encoded E).
  eexists. reflexivity.
Qed.

(** A session id with a surrogate in it makes [get_thread_id] raise. *)
Lemma get_thread_id_present_raises {World}
    (answer : forall X, Call X -> World -> outcome X * World)
    (pre : str) (ch : Z) (post : str) (w : World) :
  encodable pre -> is_surrogate ch = true ->
  exec answer (get_thread_id (Some (pre ++ ch :: post))) w
  = (Raised (UnicodeEncodeError (length pre) ch), w, []).
Proof.
  intros Hp Hc. rewrite exec_get_thread_id_present.
  rewrite (derived_raised _ (UnicodeEncodeError (length pre) ch)); [reflexivity|].
  exact (utf8_encode_from_first_surrogate pre ch post 0 Hp Hc).
Qed.

Lemma get_thread_id_absent_returns {World}
    (answer : forall X, Call X -> World -> outcome X * World) (w : World) :
  urandom_contract answer ->
  exists out w',
    exec answer (get_thread_id None) w = (Returned out, w', [Called (os_urandom 16)]).
Proof.
  intros Hu. destruct (Hu 16%nat w) as (random & w' & A & L).
  rewrite exec_get_thread_id_absent, A, (drawn_16 random L).
  eexists. eexists. reflexivity.
Qed.

(** C4, as the code has it.  [get_thread_id] returns a string, without
    raising, on [None] and on every string free of surrogate code points,
    the empty string among them.  With the session id present it makes no
    call and leaves the world as it was; with it absent its one call is
    [os.urandom(16)]. *)
Theorem get_thread_id_total :
  forall (sid : option str) (World : Type)
         (answer : forall X, Call X -> World -> outcome X * World) (w : World),
    urandom_contract answer ->
    (forall s, sid = Some s -> encodable s) ->
    exists out w',
      exec answer (get_thread_id sid) w
      = (Returned out, w',
         match sid with Some _ => [] | None => [Called (os_urandom 16)] end)
      /\ (sid <> None -> w' = w).
Proof.
  intros [s|] World answer w Hu He.
  - destruct (get_thread_id_present_returns answer s w (He s eq_refl)) as [out E].
    exists out, w. split; [exact E | reflexivity].
  - destruct (get_thread_id_absent_returns answer w Hu) as (out & w' & E).
    exists out, w'. split; [exact E | congruence].
Qed.

(** [get_thread_id_total] at the empty session id and at the absent one. *)
Lemma get_thread_id_total_witness :
  urandom_contract Sim.answer
  /\ (forall s, Some [] = Some s -> encodable s)
  /\ (exists out w',
        exec Sim.answer (get_thread_id (Some [])) Sim.initial
        = (Returned out, w', [])
        /\ (Some (@nil Z) <> None -> w' = Sim.initial))
  /\ (exists out w',
        exec Sim.answer (get_thread_id None) Sim.initial
        = (Returned out, w', [Called (os_urandom 16)])
        /\ (@None str <> None -> w' = Sim.initial)).
Proof.
  assert (E : forall s, Some [] = Some s -> encodable s).
  { intros s H. injection H as <-. constructor. }
  split; [exact sim_urandom_contract|]. split; [exact E|]. split.
  - exact (get_thread_id_total (Some []) Sim.World Sim.answer Sim.initial
             sim_urandom_contract E).
  - apply (get_thread_id_total None Sim.World Sim.answer Sim.initial
             sim_urandom_contract).
    intros s H. discriminate H.
Defined.

(** C4 as stated fails: the one-character string U+D800 is a value of type
    [str], and on it [get_thread_id] raises [UnicodeEncodeError] instead of
    returning. *)
Lemma get_thread_id_raises_on_lone_surrogate :
  well_formed [0xD800]
  /\ result Sim.answer (get_thread_id (Some [0xD800])) Sim.initial
     = Raised (UnicodeEncodeError 0 0xD800)
  /\ ~ (exists out,
          result Sim.answer (get_thread_id (Some [0xD800])) Sim.initial
          = Returned out).
Proof.
  assert (R : result Sim.answer (get_thread_id (Some [0xD800])) Sim.initial
              = Raised (UnicodeEncodeError 0 0xD800))
    by (vm_compute; reflexivity).
  split; [|split].
  - constructor; [unfold code_point, MAX_UNICODE; lia | constructor].
  - exact R.
  - intros [out H]. rewrite R in H. discriminate H.
Qed.

(** C9.  Whatever [get_thread_id] returns, on a present or an absent session
    id, is canonical UUID text: 36 characters, hexadecimal groups of 8, 4, 4,
    4 and 12 between hyphens. *)
Theorem get_thread_id_canonical :
  forall (sid : option str) (World : Type)
         (answer : forall X, Call X -> World -> outcome X * World) (w : World)
         (out : str),
    result answer (get_thread_id sid) w = Returned out ->
    canonical_uuid_text out /\ length out = 36%nat.
Proof.
  intros sid World answer w out H. unfold result in H.
  assert (Hu : exists u, out = UUID_str u /\ 0 <= int u < 2 ^ 128).
  { destruct sid as [s|].
    - rewrite exec_get_thread_id_present in H. exact (derived_range s out H).
    - rewrite exec_get_thread_id_absent in H.
      destruct (answer bytes (os_urandom 16) w) as [[random|e] w'];
        cbn [fst] in H; [|discriminate].
      exact (drawn_range random out H). }
  destruct Hu as (u & -> & Hr).
  pose proof (UUID_str_canonical u Hr) as Hc. split; [exact Hc|].
  destruct Hc as (g1 & g2 & g3 & g4 & g5 & -> & L1 & L2 & L3 & L4 & L5 & _).
  rewrite !length_app, L1, L2, L3, L4, L5. reflexivity.
Qed.

(** [get_thread_id_canonical] at the session id "abc123" and at the absent
    one. *)
Lemma get_thread_id_canonical_witness :
  result Sim.answer (get_thread_id (Some (lit "abc123"))) Sim.initial
  = Returned (lit "0d578a70-6e15-559e-84db-77e9d0956ee9")
  /\ canonical_uuid_text (lit "0d578a70-6e15-559e-84db-77e9d0956ee9")
  /\ result Sim.answer (get_thread_id None) Sim.initial
     = Returned (lit "0b30557a-9fc4-490e-b358-7da2c7ec1136")
  /\ canonical_uuid_text (lit "0b30557a-9fc4-490e-b358-7da2c7ec1136").
Proof.
  assert (R1 : result Sim.answer (get_thread_id (Some (lit "abc123"))) Sim.initial
               = Returned (lit "0d578a70-6e15-559e-84db-77e9d0956ee9"))
    by (vm_compute; reflexivity).
  assert (R2 : result Sim.answer (get_thread_id None) Sim.initial
               = Returned (lit "0b30557a-9fc4-490e-b358-7da2c7ec1136"))
    by (vm_compute; reflexivity).
  split; [exact R1|]. split.
  - exact (proj1 (get_thread_id_canonical _ _ _ _ _ R1)).
  - split; [exact R2|].
    exact (proj1 (get_thread_id_canonical _ _ _ _ _ R2)).
Defined.

(** ** Running programs *)

Section Running.

Context {World : Type}.
Variable answer : forall X, Call X -> World -> outcome X * World.

Lemma exec_bind {A B} (p : Prog A) (f : A -> Prog B) (w : World) :
  exec answer (bind p f) w
  = match exec answer p w with
    | (Returned x, w', t) =>
        let '(r, w'', t') := exec answer (f x) w' in (r, w'', t ++ t')
    | (Raised e, w', t) => (Raised e, w', t)
    end.
Proof.
  revert w. induction p as [a|e|X c k IH]; intros w; cbn [bind exec].
  - destruct (exec answer (f a) w) as [[r w''] t']. reflexivity.
  - reflexivity.
  - destruct (answer X c w) as [[x|e] w']; [|reflexivity].
    rewrite IH. destruct (exec answer (k x) w') as [[[y|e] w''] t]; [|reflexivity].
    destruct (exec answer (f y) w'') as [[r w3] t']. reflexivity.
Qed.

Lemma exec_call {X} (c : Call X) (w : World) :
  exec answer (call c) w
  = (fst (answer X c w), snd (answer X c w), [Called c]).
Proof.
  unfold call. cbn [exec]. destruct (answer X c w) as [[x|e] w']; reflexivity.
Qed.

Lemma calls_call {X} (c : Call X) (w : World) :
  calls answer (call c) w = [Called c].
Proof. unfold calls. now rewrite exec_call. Qed.

End Running.

(** ** The observers *)

Lemma str_eqb_eq (s t : str) : str_eqb s t = true <-> s = t.
Proof.
  revert t. induction s as [|c s IH]; intros [|d t]; simpl;
    try (split; [discriminate | discriminate]); [tauto|].
  rewrite andb_true_iff, Z.eqb_eq, IH. split.
  - intros [-> ->]. reflexivity.
  - intros H. injection H as -> ->. auto.
Qed.

Lemma on_user_state_changed_table (ev : UserStateChangedEvent) :
  on_user_state_changed ev
  = match line_for user_lines (user_new_state ev) with
    | Some line => call (print line)
    | None => Ret tt
    end.
Proof.
  unfold on_user_state_changed, user_lines. cbn [line_for].
  repeat match goal with |- context [str_eqb ?s ?t] => destruct (str_eqb s t) end;
    reflexivity.
Qed.

Lemma on_agent_state_changed_table (ev : AgentStateChangedEvent) :
  on_agent_state_changed ev
  = match line_for agent_lines (agent_new_state ev) with
    | Some line => call (print line)
    | None => Ret tt
    end.
Proof.
  unfold on_agent_state_changed, agent_lines. cbn [line_for].
  repeat match goal with |- context [str_eqb ?s ?t] => destruct (str_eqb s t) end;
    reflexivity.
Qed.

Lemma line_for_unknown (table : list (str * str)) (state : str) :
  ~ In state (map fst table) -> line_for table state = None.
Proof.
  induction table as [|[known line] table IH]; intros H; [reflexivity|].
  simpl in *. destruct (str_eqb state known) eqn:E.
  - apply str_eqb_eq in E. subst. tauto.
  - apply IH. tauto.
Qed.

(** C5.  Told that the user's new state is "speaking", the observer prints
    the one line "User started speaking" and does nothing else; told a state
    that is none of speaking, listening and away, it prints nothing, makes
    no call at all and returns. *)
Theorem on_user_state_changed_speaking_and_unknown :
  forall (World : Type) (answer : forall X, Call X -> World -> outcome X * World)
         (w : World) (ev : UserStateChangedEvent),
    (user_new_state ev = lit "speaking" ->
     calls answer (on_user_state_changed ev) w
     = [Called (print (lit "User started speaking"))])
    /\ (~ In (user_new_state ev) [lit "speaking"; lit "listening"; lit "away"] ->
        exec answer (on_user_state_changed ev) w = (Returned tt, w, [])).
Proof.
  intros World answer w ev. rewrite on_user_state_changed_table. split.
  - intros ->. cbn [line_for user_lines]. apply calls_call.
  - intros H. rewrite (line_for_unknown user_lines _ H). reflexivity.
Qed.

(** [on_user_state_changed_speaking_and_unknown] at a "speaking" event and at
    an event with the state "typing". *)
Lemma on_user_state_changed_witness :
  user_new_state (mkUserStateChangedEvent (lit "listening") (lit "speaking"))
  = lit "speaking"
  /\ calls Sim.answer
       (on_user_state_changed
          (mkUserStateChangedEvent (lit "listening") (lit "speaking")))
       Sim.initial
     = [Called (print (lit "User started speaking"))]
  /\ ~ In (user_new_state (mkUserStateChangedEvent (lit "speaking") (lit "typing")))
          [lit "speaking"; lit "listening"; lit "away"]
  /\ exec Sim.answer
       (on_user_state_changed
          (mkUserStateChangedEvent (lit "speaking") (lit "typing")))
       Sim.initial
     = (Returned tt, Sim.initial, []).
Proof.
  assert (U : ~ In (user_new_state
                      (mkUserStateChangedEvent (lit "speaking") (lit "typing")))
                [lit "speaking"; lit "listening"; lit "away"]).
  { simpl. intros [H|[H|[H|H]]]; try discriminate H. exact H. }
  split; [reflexivity|]. split.
  - exact (proj1 (on_user_state_changed_speaking_and_unknown
                    Sim.World Sim.answer Sim.initial
                    (mkUserStateChangedEvent (lit "listening") (lit "speaking")))
                 eq_refl).
  - split; [exact U|].
    exact (proj2 (on_user_state_changed_speaking_and_unknown
                    Sim.World Sim.answer Sim.initial
                    (mkUserStateChangedEvent (lit "speaking") (lit "typing")))
                 U).
Defined.

(** What the agent-state observer prints for a run of events, one after the
    other. *)
Lemma calls_for_each_agent_states {World}
    (answer : forall X, Call X -> World -> outcome X * World) :
  prints_succeed answer ->
  forall (events : list AgentStateChangedEvent) (w : World),
    fst (fst (exec answer (for_each on_agent_state_changed events) w)) = Returned tt
    /\ calls answer (for_each on_agent_state_changed events) w
       = flat_map (fun ev =>
                     match line_for agent_lines (agent_new_state ev) with
                     | Some line => [Called (print line)]
                     | None => []
                     end) events.
Proof.
  intros Hp. unfold calls.
  induction events as [|ev events IH]; intros w; [split; reflexivity|].
  cbn [for_each flat_map]. rewrite exec_bind, on_agent_state_changed_table.
  destruct (line_for agent_lines (agent_new_state ev)) as [line|].
  - rewrite exec_call. destruct (Hp line w) as [w' E]. rewrite E. cbn [fst snd].
    specialize (IH w').
    destruct (exec answer (for_each on_agent_state_changed events) w')
      as [[r w''] t].
    cbn [fst snd] in *. destruct IH as [-> ->]. split; reflexivity.
  - cbn [exec]. specialize (IH w).
    destruct (exec answer (for_each on_agent_state_changed events) w)
      as [[r w''] t].
    cbn [fst snd] in *. destruct IH as [-> ->]. split; reflexivity.
Qed.

(** C6.  For agent-state events that go through initializing, idle,
    listening, thinking and speaking, the observer prints one line per
    event, the line of that event's state, in the order of the events:
    nothing is left out and nothing is printed twice.  The same holds for
    any run of events in these five states. *)
Theorem on_agent_state_changed_cycle :
  forall (World : Type) (answer : forall X, Call X -> World -> outcome X * World)
         (w : World),
    prints_succeed answer ->
    (forall o1 o2 o3 o4 o5 : str,
        calls answer
          (for_each on_agent_state_changed
             [mkAgentStateChangedEvent o1 (lit "initializing");
              mkAgentStateChangedEvent o2 (lit "idle");
              mkAgentStateChangedEvent o3 (lit "listening");
              mkAgentStateChangedEvent o4 (lit "thinking");
              mkAgentStateChangedEvent o5 (lit "speaking")]) w
        = [Called (print (lit "Agent is starting up"));
           Called (print (lit "Agent is ready but not processing"));
           Called (print (lit "Agent is listening for user input"));
           Called (print (lit "Agent is processing user input and generating a response"));
           Called (print (lit "Agent started speaking"))])
    /\ (forall events : list AgentStateChangedEvent,
          Forall (fun ev => In (agent_new_state ev) (map fst agent_lines)) events ->
          exists lines : list str,
            calls answer (for_each on_agent_state_changed events) w
            = map (fun line => Called (print line)) lines
            /\ map Some lines
               = map (fun ev => line_for agent_lines (agent_new_state ev)) events).
Proof.
  intros World answer w Hp. split.
  - intros o1 o2 o3 o4 o5.
    rewrite (proj2 (calls_for_each_agent_states answer Hp _ w)). reflexivity.
  - intros events Hk.
    rewrite (proj2 (calls_for_each_agent_states answer Hp events w)).
    clear w. induction Hk as [|ev events Hin _ IH].
    + exists []. split; reflexivity.
    + destruct IH as (lines & E1 & E2).
      destruct (line_for agent_lines (agent_new_state ev)) as [line|] eqn:L.
      * exists (line :: lines). cbn [flat_map map]. rewrite L, E1, E2.
        split; reflexivity.
      * exfalso. revert Hin L. generalize (agent_new_state ev). intros state.
        unfold agent_lines. cbn [map fst In line_for].
        intros [<-|[<-|[<-|[<-|[<-|[]]]]]]; discriminate.
Qed.

(** In the simulated world the console takes every line, and the
    five-state run prints its five lines there. *)
Lemma on_agent_state_changed_cycle_witness :
  prints_succeed Sim.answer
  /\ Sim.stdout
       (world_after Sim.answer
          (for_each on_agent_state_changed
             [mkAgentStateChangedEvent [] (lit "initializing");
              mkAgentStateChangedEvent (lit "initializing") (lit "idle");
              mkAgentStateChangedEvent (lit "idle") (lit "listening");
              mkAgentStateChangedEvent (lit "listening") (lit "thinking");
              mkAgentStateChangedEvent (lit "thinking") (lit "speaking")])
          Sim.initial)
     = [lit "Agent is starting up";
        lit "Agent is ready but not processing";
        lit "Agent is listening for user input";
        lit "Agent is processing user input and generating a response";
        lit "Agent started speaking"]
  /\ calls Sim.answer
       (for_each on_agent_state_changed
          [mkAgentStateChangedEvent [] (lit "initializing");
           mkAgentStateChangedEvent (lit "initializing") (lit "idle");
           mkAgentStateChangedEvent (lit "idle") (lit "listening");
           mkAgentStateChangedEvent (lit "listening") (lit "thinking");
           mkAgentStateChangedEvent (lit "thinking") (lit "speaking")])
       Sim.initial
     = [Called (print (lit "Agent is starting up"));
        Called (print (lit "Agent is ready but not processing"));
        Called (print (lit "Agent is listening for user input"));
        Called (print (lit "Agent is processing user input and generating a response"));
        Called (print (lit "Agent started speaking"))].
Proof.
  split; [exact sim_prints_succeed|]. split; [reflexivity|].
  exact (proj1 (on_agent_state_changed_cycle Sim.World Sim.answer Sim.initial
                  sim_prints_succeed) _ _ _ _ _).
Defined.

(** C7, as the code has it.  The user-state and the agent-state observers
    make no call but one [print] of the line of a state they know.  The
    metrics callback logs the metrics and then hands them to the usage
    collector that [entrypoint] created, which is more than writing a line;
    it makes no other call. *)
Theorem observers_frame :
  forall (World : Type) (answer : forall X, Call X -> World -> outcome X * World)
         (w : World),
    (forall ev,
        calls answer (on_user_state_changed ev) w
        = match line_for user_lines (user_new_state ev) with
          | Some line => [Called (print line)]
          | None => []
          end)
    /\ (forall ev,
          calls answer (on_agent_state_changed ev) w
          = match line_for agent_lines (agent_new_state ev) with
            | Some line => [Called (print line)]
            | None => []
            end)
    /\ (forall usage_collector agent_metrics,
          calls answer (on_metrics_collected usage_collector agent_metrics) w
          = match fst (answer _ (metrics_log_metrics agent_metrics) w) with
            | Returned _ =>
                [Called (metrics_log_metrics agent_metrics);
                 Called (usage_collector_collect usage_collector agent_metrics)]
            | Raised _ => [Called (metrics_log_metrics agent_metrics)]
            end).
Proof.
  intros World answer w. split; [|split].
  - intros ev. rewrite on_user_state_changed_table.
    destruct (line_for user_lines (user_new_state ev));
      [apply calls_call | reflexivity].
  - intros ev. rewrite on_agent_state_changed_table.
    destruct (line_for agent_lines (agent_new_state ev));
      [apply calls_call | reflexivity].
  - intros usage_collector agent_metrics.
    unfold calls, on_metrics_collected, call. cbn [bind exec].
    destruct (answer unit (metrics_log_metrics agent_metrics) w) as [[[]|e] w'];
      cbn [fst]; [|reflexivity].
    destruct (answer unit (usage_collector_collect usage_collector agent_metrics) w')
      as [[[]|e] w'']; reflexivity.
Qed.

(** C7 as stated fails: on an LLM metrics event the metrics callback calls
    the usage collector, which is no diagnostic output, and the collector's
    token counts change. *)
Lemma on_metrics_collected_updates_usage_collector :
  forallb diagnostic
    (calls Sim.answer (on_metrics_collected 0%nat (LLMMetrics 12 30)) Sim.initial)
  = false
  /\ Sim.summary Sim.initial = Sim.mkUsageSummary 0 0 0
  /\ Sim.summary
       (world_after Sim.answer (on_metrics_collected 0%nat (LLMMetrics 12 30))
          Sim.initial)
     = Sim.mkUsageSummary 12 30 0.
Proof. repeat split. Qed.

(** ** The agent and the startup *)

(** C10.  [on_enter] makes one call: it asks the session for one reply, the
    greeting, with interruptions allowed. *)
Theorem on_enter_greets_once :
  forall (World : Type) (answer : forall X, Call X -> World -> outcome X * World)
         (w : World) (session : ref),
    calls answer (on_enter session) w
    = [Called (session_generate_reply session
                 (lit "Hey, how can I help you today?") true)].
Proof. intros. apply calls_call. Qed.

Ltac answer_cases answer :=
  match goal with
  | |- context [answer ?X ?c ?w] =>
      let x := fresh "x" in
      let e := fresh "e" in
      let w' := fresh "w" in
      let E := fresh "E" in
      destruct (answer X c w) as [[x|e] w'] eqn:E
  end.

Ltac finish_run :=
  repeat match goal with x : unit |- _ => destruct x end;
  cbn [fst snd map call_name];
  split; [reflexivity|];
  split;
  [ intros Hr;
    first [ discriminate Hr
          | do 31 eexists; repeat split; first [reflexivity | eassumption] ]
  | intros c Hc;
    first [ discriminate Hc
          | do 5 eexists; repeat split; first [reflexivity | eassumption] ] ].

(** C8.  Whatever the world answers, the calls of [entrypoint] are an
    initial part of one fixed sequence: connect, wait for a participant,
    construct the graph handle, the adapter and the session, register the
    three observers, construct the agent, start the session.  A run that
    completes is a [completed_startup]: it makes the whole sequence once,
    each call answered in the world the call before it left, with the
    thread identifier derived from the session id of the participant that
    the wait returned, the adapter built on the graph handle that
    [RemoteGraph] returned and on that identifier, the session built on
    that adapter, the observers registered on that session, and the start
    of that session last.  Nothing after the wait happens unless the
    identifier has been derived from the participant this run waited
    for. *)
Theorem entrypoint_sequence :
  forall (instructions : str) (remote_graph_url : option str) (ctx : JobContext)
         (World : Type) (answer : forall X, Call X -> World -> outcome X * World)
         (w : World),
    is_prefix
      (map call_name (calls answer (entrypoint instructions remote_graph_url ctx) w))
      STARTUP_ORDER = true
    /\ (result answer (entrypoint instructions remote_graph_url ctx) w = Returned tt ->
        completed_startup answer instructions remote_graph_url ctx w
          (exec answer (entrypoint instructions remote_graph_url ctx) w))
    /\ (forall c,
          nth_error (calls answer (entrypoint instructions remote_graph_url ctx) w) 3
          = Some c ->
          exists (w1 w2 w3 : World) (participant : Participant) (thread_id : str),
            answer _ (logger_info (lit "connecting to room " ++ name (room ctx))) w
            = (Returned tt, w1)
            /\ answer _ (ctx_connect AUDIO_ONLY) w1 = (Returned tt, w2)
            /\ answer _ ctx_wait_for_participant w2 = (Returned participant, w3)
            /\ derived (sid participant) = Returned thread_id).
Proof.
  intros instructions remote_graph_url ctx World answer w.
  unfold completed_startup, calls, result, entrypoint, Assistant.
  cbn [bind call exec].
  do 3 (answer_cases answer; [|finish_run]).
  rewrite exec_bind, exec_get_thread_id_present.
  destruct (derived (sid x1)) as [thread_id|e] eqn:D; [|finish_run].
  cbn [exec app].
  do 3 (answer_cases answer; [|finish_run]).
  rewrite exec_bind, exec_lift.
  destruct (dict_get (userdata (proc ctx)) "vad") as [vad|e] eqn:V; [|finish_run].
  cbn [exec app].
  do 11 (answer_cases answer; [|finish_run]).
  cbn [bind call exec]. answer_cases answer; finish_run.
Qed.

(** [entrypoint_sequence] on a run that completes in the simulated world:
    the participant PA_abc123 joins; the usage collector is object 1, the
    graph handle 2, the adapter 3 and the session 4, and each is handed on
    to the calls that need it. *)
Lemma entrypoint_sequence_witness :
  result Sim.answer (entrypoint (lit "You are Kai") None Sim.job) Sim.initial
  = Returned tt
  /\ calls Sim.answer (entrypoint (lit "You are Kai") None Sim.job) Sim.initial
     = [Called (logger_info (lit "connecting to room kitchen"));
        Called (ctx_connect AUDIO_ONLY);
        Called ctx_wait_for_participant;
        Called (logger_info (lit "starting voice assistant for participant alice"));
        Called metrics_UsageCollector;
        Called (RemoteGraph (lit "stepwork_assistant") None);
        Called (LangGraphAdapter 2%nat (lit "7ba19146-905a-551d-bf1f-b62463057c01"));
        Called (AgentSession 0%nat (1 # 2) (5 # 1) 3%nat);
        Called (session_on 4%nat (lit "metrics_collected")
                  (cb_on_metrics_collected 1%nat));
        Called (session_on 4%nat (lit "user_state_changed")
                  cb_on_user_state_changed);
        Called (session_on 4%nat (lit "agent_state_changed")
                  cb_on_agent_state_changed);
        Called deepgram_STT;
        Called cartesia_TTS;
        Called MultilingualModel;
        Called (Agent_init (lit "You are Kai") 5%nat 6%nat 7%nat);
        Called noise_cancellation_BVC;
        Called (RoomInputOptions 9%nat);
        Called (session_start 4%nat (room Sim.job) 8%nat 10%nat)]
  /\ completed_startup Sim.answer (lit "You are Kai") None Sim.job Sim.initial
       (exec Sim.answer (entrypoint (lit "You are Kai") None Sim.job) Sim.initial).
Proof.
  assert (R : result Sim.answer (entrypoint (lit "You are Kai") None Sim.job)
                Sim.initial = Returned tt) by (vm_compute; reflexivity).
  split; [exact R|]. split; [vm_compute; reflexivity|].
  exact (proj1 (proj2 (entrypoint_sequence (lit "You are Kai") None Sim.job
                         Sim.World Sim.answer Sim.initial)) R).
Defined.

(** * Further properties *)

(** ** The process dictionary and [prewarm] *)

Lemma dict_get_set_same (d : list (string * ref)) (key : string) (v : ref) :
  dict_get (dict_set d key v) key = Returned v.
Proof.
  induction d as [|[k v'] d IH]; simpl.
  - now rewrite String.eqb_refl.
  - destruct (String.eqb k key) eqn:E; simpl; rewrite E; [reflexivity | exact IH].
Qed.

Lemma dict_get_set_other (d : list (string * ref)) (key other : string) (v : ref) :
  other <> key -> dict_get (dict_set d key v) other = dict_get d other.
Proof.
  intros Hne. induction d as [|[k v'] d IH]; simpl.
  - destruct (String.eqb key other) eqn:E; [|reflexivity].
    apply String.eqb_eq in E. congruence.
  - destruct (String.eqb k key) eqn:E; simpl.
    + apply String.eqb_eq in E. subst k.
      destruct (String.eqb key other) eqn:E'; [|reflexivity].
      apply String.eqb_eq in E'. congruence.
    + destruct (String.eqb k other); [reflexivity | exact IH].
Qed.

Lemma dict_get_raises (d : list (string * ref)) (key : string) (e : exn) :
  dict_get d key = Raised e -> e = KeyError key.
Proof.
  induction d as [|[k v] d IH]; simpl.
  - intros H. now injection H.
  - destruct (String.eqb k key); [discriminate | exact IH].
Qed.

(** X1.  When the model loads, [prewarm] makes that one call and returns
    the process with the model under "vad": looking "vad" up gives the
    loaded model, whatever was there before, and every other key is as it
    was. *)
Theorem prewarm_registers_vad :
  forall (World : Type) (answer : forall X, Call X -> World -> outcome X * World)
         (w w' : World) (proc : JobProcess) (vad : ref),
    answer _ silero_VAD_load w = (Returned vad, w') ->
    exists proc',
      exec answer (prewarm proc) w = (Returned proc', w', [Called silero_VAD_load])
      /\ dict_get (userdata proc') "vad" = Returned vad
      /\ forall key, key <> "vad"%string ->
                     dict_get (userdata proc') key = dict_get (userdata proc) key.
Proof.
  intros World answer w w' proc vad H.
  exists (mkJobProcess (dict_set (userdata proc) "vad" vad)).
  split; [|split].
  - unfold prewarm, call. cbn [bind exec]. rewrite H. reflexivity.
  - apply dict_get_set_same.
  - intros key Hk. now apply dict_get_set_other.
Qed.

(** [prewarm_registers_vad] in the simulated world, on a process that
    already holds an older model and a second entry. *)
Lemma prewarm_registers_vad_witness :
  Sim.answer _ silero_VAD_load Sim.initial
  = (Returned 1%nat, snd (Sim.fresh Sim.initial))
  /\ exists proc',
      exec Sim.answer
        (prewarm (mkJobProcess [("cache"%string, 7%nat); ("vad"%string, 9%nat)]))
        Sim.initial
      = (Returned proc', snd (Sim.fresh Sim.initial), [Called silero_VAD_load])
      /\ dict_get (userdata proc') "vad" = Returned 1%nat
      /\ forall key, key <> "vad"%string ->
                     dict_get (userdata proc') key
                     = dict_get
                         (userdata (mkJobProcess [("cache"%string, 7%nat);
                                                  ("vad"%string, 9%nat)])) key.
Proof.
  split; [reflexivity|].
  exact (prewarm_registers_vad Sim.World Sim.answer Sim.initial
           (snd (Sim.fresh Sim.initial))
           (mkJobProcess [("cache"%string, 7%nat); ("vad"%string, 9%nat)])
           1%nat eq_refl).
Defined.

(** ** Every outcome of the present branch *)

Lemma first_surrogate (s : str) :
  encodable s
  \/ exists pre ch post,
       s = pre ++ ch :: post /\ encodable pre /\ is_surrogate ch = true.
Proof.
  induction s as [|c s IH].
  - left. constructor.
  - destruct (is_surrogate c) eqn:E.
    + right. exists [], c, s. repeat split; [constructor | exact E].
    + destruct IH as [He|(pre & ch & post & -> & Hp & Hc)].
      * left. now constructor.
      * right. exists (c :: pre), ch, post.
        repeat split; [now constructor | exact Hc].
Qed.

(** X2.  With a session id present [get_thread_id] makes no call and either
    returns, which it does exactly on the ids free of surrogates, or raises
    [UnicodeEncodeError] with the position and the code of the first
    surrogate in the id; it raises nothing else. *)
Theorem get_thread_id_present_outcome :
  forall (s : str) (World : Type)
         (answer : forall X, Call X -> World -> outcome X * World) (w : World),
    (encodable s
     /\ exists out, exec answer (get_thread_id (Some s)) w = (Returned out, w, []))
    \/ (exists pre ch post,
          s = pre ++ ch :: post /\ encodable pre /\ is_surrogate ch = true
          /\ exec answer (get_thread_id (Some s)) w
             = (Raised (UnicodeEncodeError (length pre) ch), w, [])).
Proof.
  intros s World answer w.
  destruct (first_surrogate s) as [He|(pre & ch & post & -> & Hp & Hc)].
  - left. split; [exact He|]. now apply get_thread_id_present_returns.
  - right. exists pre, ch, post. repeat split; try assumption.
    now apply get_thread_id_present_raises.
Qed.

(** ** The version and the variant in the text *)

Lemma fixed_hex_nth (k : nat) :
  forall (n : Z) (j : nat),
    (j < k)%nat ->
    nth j (fixed_hex k n) 0 = hex_digit ((n / 16 ^ Z.of_nat (k - 1 - j)) mod 16).
Proof.
  induction k as [|k IH]; intros n j Hj; [lia|]. simpl fixed_hex.
  destruct (Nat.eq_dec j k) as [->|Hne].
  - rewrite app_nth2 by (rewrite fixed_hex_length; lia).
    rewrite fixed_hex_length, Nat.sub_diag.
    replace (S k - 1 - k)%nat with 0%nat by lia.
    cbn [nth]. change (16 ^ Z.of_nat 0) with 1. now rewrite Z.div_1_r.
  - rewrite app_nth1 by (rewrite fixed_hex_length; lia).
    rewrite IH by lia. f_equal. f_equal.
    replace (Z.of_nat (S k - 1 - j)) with (Z.succ (Z.of_nat (k - 1 - j))) by lia.
    rewrite Z.pow_succ_r by lia.
    rewrite Z.div_div by (try apply Z.pow_pos_nonneg; lia). reflexivity.
Qed.

(** The characters at positions 14 and 19 of the text are the digits of
    bits 76 to 79 and of bits 60 to 63. *)
Lemma UUID_str_digits (u : UUID) :
  0 <= int u < 2 ^ 128 ->
  nth 14 (UUID_str u) 0 = hex_digit (Z.land (Z.shiftr (int u) 76) (Z.ones 4))
  /\ nth 19 (UUID_str u) 0 = hex_digit (Z.land (Z.shiftr (int u) 60) (Z.ones 4)).
Proof.
  intros Hu.
  rewrite !Z.land_ones, !Z.shiftr_div_pow2 by lia.
  change (2 ^ 4) with 16. change (2 ^ 76) with (16 ^ Z.of_nat (32 - 1 - 12)).
  change (2 ^ 60) with (16 ^ Z.of_nat (32 - 1 - 16)).
  rewrite <- !fixed_hex_nth by lia.
  unfold UUID_str. rewrite format_032x_fixed by assumption.
  pose proof (fixed_hex_length 32 (int u)) as L.
  set (h := fixed_hex 32 (int u)) in *. clearbody h.
  do 32 (destruct h as [|? h]; [discriminate L|]).
  destruct h; [|discriminate L]. split; reflexivity.
Qed.

Lemma stamp_version_bits (version i : Z) :
  version = 4 \/ version = 5 ->
  Z.land (Z.shiftr (stamp version i) 76) (Z.ones 4) = version.
Proof.
  intros Hv.
  change (Z.ones 4) with (Z.shiftr (Z.shiftl 15 76) 76).
  rewrite <- Z.shiftr_land.
  replace (Z.land (stamp version i) (Z.shiftl 15 76)) with (Z.shiftl version 76).
  - destruct Hv; subst version; reflexivity.
  - symmetry. unfold stamp. destruct Hv; subst version; bitwise_in i.
Qed.

Lemma stamp_variant_bits (version i : Z) :
  version = 4 \/ version = 5 ->
  8 <= Z.land (Z.shiftr (stamp version i) 60) (Z.ones 4) <= 11.
Proof.
  intros Hv.
  change (Z.ones 4) with (Z.shiftr (Z.shiftl 15 60) 60).
  rewrite <- Z.shiftr_land.
  replace (Z.land (stamp version i) (Z.shiftl 15 60))
    with (Z.lor (Z.shiftl 8 60) (Z.land i (Z.shiftl 3 60)))
    by (unfold stamp; destruct Hv; subst version; bitwise_in i).
  rewrite Z.shiftr_lor, Z.shiftr_land.
  change (Z.shiftr (Z.shiftl 8 60) 60) with (2 * 2 ^ 2).
  change (Z.shiftr (Z.shiftl 3 60) 60) with (Z.ones 2).
  rewrite Z.land_ones by lia.
  pose proof (Z.mod_pos_bound (Z.shiftr i 60) (2 ^ 2) ltac:(lia)) as Hm.
  rewrite lor_disjoint by lia. change (2 ^ 2) with 4 in *. lia.
Qed.

Lemma variant_digit (d : Z) :
  8 <= d <= 11 -> In (hex_digit d) [56; 57; 97; 98].
Proof.
  intros Hd. assert (d = 8 \/ d = 9 \/ d = 10 \/ d = 11) as [-> | [-> | [-> | ->]]] by lia;
    simpl; auto.
Qed.

(** What a returned identifier is the text of. *)
Lemma returned_stamp {World}
    (answer : forall X, Call X -> World -> outcome X * World)
    (sid : option str) (w : World) (out : str) :
  result answer (get_thread_id sid) w = Returned out ->
  exists i, 0 <= i < 2 ^ 128
            /\ out = UUID_str (mkUUID (stamp (match sid with
                                              | Some _ => 5
                                              | None => 4
                                              end) i)).
Proof.
  unfold result. intros H. destruct sid as [s|].
  - rewrite exec_get_thread_id_present in H. cbn [fst] in H.
    destruct (derived_returned s out H) as [encoded E].
    rewrite (derived_encoded s encoded E) in H. injection H as <-.
    eexists. split; [|reflexivity].
    pose proof (int_from_bytes_range (firstn 16 (SHA1.digest (hashed encoded)))) as R.
    rewrite digest_prefix_length in R. exact R.
  - rewrite exec_get_thread_id_absent in H.
    destruct (answer bytes (os_urandom 16) w) as [[random|e] w'];
      cbn [fst] in H; [|discriminate].
    destruct (Nat.eq_dec (length random) 16) as [L|L].
    + rewrite (drawn_16 random L) in H. injection H as <-.
      eexists. split; [|reflexivity].
      pose proof (int_from_bytes_range random) as R. rewrite L in R. exact R.
    + unfold drawn in H. rewrite UUID_bytes_other_length in H by assumption.
      discriminate.
Qed.

Lemma returned_digits {World}
    (answer : forall X, Call X -> World -> outcome X * World)
    (sid : option str) (w : World) (out : str) :
  result answer (get_thread_id sid) w = Returned out ->
  nth 14 out 0 = (match sid with Some _ => 53 | None => 52 end)
  /\ In (nth 19 out 0) [56; 57; 97; 98].
Proof.
  intros H. destruct (returned_stamp answer sid w out H) as (i & Hi & ->).
  assert (Hv : (match sid with Some _ => 5 | None => 4 end) = 4
               \/ (match sid with Some _ => 5 | None => 4 end) = 5)
    by (destruct sid; auto).
  destruct (UUID_str_digits (mkUUID (stamp (match sid with
                                           | Some _ => 5
                                           | None => 4
                                           end) i)))
    as [D14 D19]; [simpl; now apply stamp_range|].
  simpl int in D14, D19.
  rewrite D14, D19, stamp_version_bits by assumption. split.
  - destruct sid; reflexivity.
  - apply variant_digit. now apply stamp_variant_bits.
Qed.

(** X3.  An identifier that [get_thread_id] returns says how it was made:
    its version digit, the character at position 14, is 5 when the session
    id was present and 4 when it was absent, and its variant digit, at
    position 19, is one of 8, 9, a and b. *)
Theorem get_thread_id_version_and_variant :
  forall (sid : option str) (World : Type)
         (answer : forall X, Call X -> World -> outcome X * World) (w : World)
         (out : str),
    result answer (get_thread_id sid) w = Returned out ->
    nth 14 out 0 = (match sid with Some _ => 53 | None => 52 end)
    /\ In (nth 19 out 0) (lit "89ab").
Proof. intros sid World answer w out H. exact (returned_digits answer sid w out H). Qed.

(** [get_thread_id_version_and_variant] at the session id "abc123". *)
Lemma get_thread_id_version_and_variant_witness :
  result Sim.answer (get_thread_id (Some (lit "abc123"))) Sim.initial
  = Returned (lit "0d578a70-6e15-559e-84db-77e9d0956ee9")
  /\ nth 14 (lit "0d578a70-6e15-559e-84db-77e9d0956ee9") 0 = 53
  /\ In (nth 19 (lit "0d578a70-6e15-559e-84db-77e9d0956ee9") 0) (lit "89ab").
Proof.
  assert (R : result Sim.answer (get_thread_id (Some (lit "abc123"))) Sim.initial
              = Returned (lit "0d578a70-6e15-559e-84db-77e9d0956ee9"))
    by (vm_compute; reflexivity).
  split; [exact R|].
  exact (get_thread_id_version_and_variant _ _ _ _ _ R).
Defined.

(** X4.  An identifier derived from a session id is never one that the
    absent branch returns, whatever the entropy: the two kinds cannot be
    mistaken for each other. *)
Theorem get_thread_id_branches_disjoint :
  forall (s : str) (W1 W2 : Type)
         (a1 : forall X, Call X -> W1 -> outcome X * W1)
         (a2 : forall X, Call X -> W2 -> outcome X * W2)
         (w1 : W1) (w2 : W2) (out1 out2 : str),
    result a1 (get_thread_id (Some s)) w1 = Returned out1 ->
    result a2 (get_thread_id None) w2 = Returned out2 ->
    out1 <> out2.
Proof.
  intros s W1 W2 a1 a2 w1 w2 out1 out2 H1 H2 E. subst out2.
  destruct (returned_digits a1 (Some s) w1 out1 H1) as [D1 _].
  destruct (returned_digits a2 None w2 out1 H2) as [D2 _].
  rewrite D1 in D2. discriminate D2.
Qed.

(** [get_thread_id_branches_disjoint] at the session id "abc123" and the
    first draw of the simulated world. *)
Lemma get_thread_id_branches_disjoint_witness :
  result Sim.answer (get_thread_id (Some (lit "abc123"))) Sim.initial
  = Returned (lit "0d578a70-6e15-559e-84db-77e9d0956ee9")
  /\ result Sim.answer (get_thread_id None) Sim.initial
     = Returned (lit "0b30557a-9fc4-490e-b358-7da2c7ec1136")
  /\ lit "0d578a70-6e15-559e-84db-77e9d0956ee9"
     <> lit "0b30557a-9fc4-490e-b358-7da2c7ec1136".
Proof.
  assert (R1 : result Sim.answer (get_thread_id (Some (lit "abc123"))) Sim.initial
               = Returned (lit "0d578a70-6e15-559e-84db-77e9d0956ee9"))
    by (vm_compute; reflexivity).
  assert (R2 : result Sim.answer (get_thread_id None) Sim.initial
               = Returned (lit "0b30557a-9fc4-490e-b358-7da2c7ec1136"))
    by (vm_compute; reflexivity).
  split; [exact R1|]. split; [exact R2|].
  exact (get_thread_id_branches_disjoint _ _ _ _ _ _ _ _ _ R1 R2).
Defined.

(** ** Reading an identifier back *)

Lemma remove_from_absent (o : Z) (old s : str) :
  ~ In o s -> remove_from (o :: old) 0 s = s.
Proof.
  induction s as [|c s IH]; intros Hn; [reflexivity|].
  cbn [remove_from starts_with].
  destruct (Z.eqb_spec o c) as [->|Hne].
  - exfalso. apply Hn. now left.
  - cbn [andb]. f_equal. apply IH. intros Hin. apply Hn. now right.
Qed.

Lemma remove_from_single (c : Z) (s : str) :
  remove_from [c] 0 s = filter (fun x => negb (c =? x)) s.
Proof.
  induction s as [|x s IH]; [reflexivity|].
  cbn [remove_from starts_with filter length Nat.sub].
  destruct s as [|y s']; destruct (c =? x); cbn [andb negb];
    rewrite <- ?IH; reflexivity.
Qed.

Lemma hex_char_not_hyphen (g : str) :
  forallb is_hex_char g = true -> filter (fun x => negb (45 =? x)) g = g.
Proof.
  intros H. apply forallb_filter_id. rewrite forallb_forall in *.
  intros x Hx. specialize (H x Hx). unfold is_hex_char in H.
  destruct (Z.eqb_spec 45 x) as [<-|]; [discriminate H | reflexivity].
Qed.

Lemma hex_value_hex_digit (d : Z) : 0 <= d < 16 -> hex_value (hex_digit d) = Some d.
Proof.
  intros Hd. unfold hex_value, hex_digit.
  destruct (d <? 10) eqn:E; [apply Z.ltb_lt in E | apply Z.ltb_ge in E].
  - replace ((48 <=? 48 + d) && (48 + d <=? 57)) with true
      by (symmetry; apply andb_true_iff; split; apply Z.leb_le; lia).
    f_equal. lia.
  - replace ((48 <=? 87 + d) && (87 + d <=? 57)) with false
      by (symmetry; apply andb_false_iff; right; apply Z.leb_gt; lia).
    replace ((97 <=? 87 + d) && (87 + d <=? 102)) with true
      by (symmetry; apply andb_true_iff; split; apply Z.leb_le; lia).
    f_equal. lia.
Qed.

Lemma int_16_from_app (l1 l2 : str) :
  forall acc,
    int_16_from acc (l1 ++ l2)
    = outcome_bind (int_16_from acc l1) (fun a => int_16_from a l2).
Proof.
  induction l1 as [|c l1 IH]; intros acc; [reflexivity|].
  cbn [app int_16_from]. destruct (hex_value c); [apply IH | reflexivity].
Qed.

(** [int(_, 16)] reads back what ['%x'] wrote. *)
Lemma int_16_from_fixed_hex (k : nat) :
  forall n acc,
    0 <= n < 16 ^ Z.of_nat k ->
    int_16_from acc (fixed_hex k n) = Returned (acc * 16 ^ Z.of_nat k + n).
Proof.
  induction k as [|k IH]; intros n acc Hn.
  - cbn in *. f_equal. lia.
  - rewrite Nat2Z.inj_succ, Z.pow_succ_r in * by lia.
    simpl fixed_hex. rewrite int_16_from_app, IH.
    + cbn [outcome_bind int_16_from].
      rewrite hex_value_hex_digit by (apply Z.mod_pos_bound; lia).
      f_equal. pose proof (Z.div_mod n 16 ltac:(lia)). lia.
    + split; [apply Z.div_pos; lia | apply Z.div_lt_upper_bound; lia].
Qed.

Lemma in_firstn {A} (k : nat) (l : list A) (x : A) : In x (firstn k l) -> In x l.
Proof.
  intros H. rewrite <- (firstn_skipn k l). apply in_or_app. now left.
Qed.

Lemma in_skipn {A} (k : nat) (l : list A) (x : A) : In x (skipn k l) -> In x l.
Proof.
  intros H. rewrite <- (firstn_skipn k l). apply in_or_app. now right.
Qed.

Lemma lstrip_none (chars s : str) :
  (forall x, In x s -> existsb (Z.eqb x) chars = false) -> lstrip chars s = s.
Proof.
  intros H. destruct s as [|c s]; [reflexivity|].
  cbn [lstrip]. rewrite H by (now left). reflexivity.
Qed.

Lemma strip_none (chars s : str) :
  (forall x, In x s -> existsb (Z.eqb x) chars = false) -> strip chars s = s.
Proof.
  intros H. unfold strip. rewrite (lstrip_none chars s H).
  rewrite lstrip_none; [apply rev_involutive|].
  intros x Hx. apply H. now apply in_rev.
Qed.

(** [UUID(str(u))] is [u]. *)
Lemma UUID_hex_str (u : UUID) :
  0 <= int u < 2 ^ 128 -> UUID_hex (UUID_str u) = Returned u.
Proof.
  intros Hu. destruct u as [n]. cbn [int] in Hu.
  assert (S : UUID_str (mkUUID n)
              = firstn 8 (fixed_hex 32 n) ++ [45]
                ++ firstn 4 (skipn 8 (fixed_hex 32 n)) ++ [45]
                ++ firstn 4 (skipn 12 (fixed_hex 32 n)) ++ [45]
                ++ firstn 4 (skipn 16 (fixed_hex 32 n)) ++ [45]
                ++ skipn 20 (fixed_hex 32 n)).
  { unfold UUID_str. simpl int. rewrite format_032x_fixed by assumption.
    reflexivity. }
  pose proof (fixed_hex_length 32 n) as L.
  pose proof (fixed_hex_is_hex 32 n) as Hh.
  pose proof (int_16_from_fixed_hex 32 n 0 Hu) as P.
  set (h := fixed_hex 32 n) in *. clearbody h.
  assert (Hin : forall x, In x (UUID_str (mkUUID n)) -> is_hex_char x = true \/ x = 45).
  { rewrite S. intros x Hx. rewrite forallb_forall in Hh.
    repeat (apply in_app_or in Hx; destruct Hx as [Hx|Hx]);
      try solve [cbn [In] in Hx; destruct Hx as [Hx|[]]; right; now symmetry];
      left; apply Hh;
      repeat match goal with
             | H : In _ (firstn _ _) |- _ => apply in_firstn in H
             | H : In _ (skipn _ _) |- _ => apply in_skipn in H
             end; assumption. }
  unfold UUID_hex.
  assert (R1 : remove (lit "urn:") (UUID_str (mkUUID n)) = UUID_str (mkUUID n)).
  { apply remove_from_absent. intros H. apply Hin in H. destruct H; discriminate. }
  rewrite R1.
  assert (R2 : remove (lit "uuid:") (UUID_str (mkUUID n)) = UUID_str (mkUUID n)).
  { apply remove_from_absent. intros H. apply Hin in H. destruct H; discriminate. }
  rewrite R2.
  assert (R3 : strip (lit "{}") (UUID_str (mkUUID n)) = UUID_str (mkUUID n)).
  { apply strip_none. intros x Hx. apply Hin in Hx. cbn [existsb lit].
    destruct (Z.eqb_spec x (Z.of_N (N_of_ascii "{"))) as [->|_];
      [destruct Hx; discriminate|].
    destruct (Z.eqb_spec x (Z.of_N (N_of_ascii "}"))) as [->|_];
      [destruct Hx; discriminate|].
    reflexivity. }
  rewrite R3.
  assert (R4 : remove (lit "-") (UUID_str (mkUUID n)) = h).
  { unfold remove. cbn [lit]. change (Z.of_N (N_of_ascii "-")) with 45.
    rewrite remove_from_single, S, !filter_app.
    rewrite <- (regroup h) in Hh. rewrite !forallb_app in Hh.
    apply andb_true_iff in Hh. destruct Hh as [G1 Hh].
    apply andb_true_iff in Hh. destruct Hh as [G2 Hh].
    apply andb_true_iff in Hh. destruct Hh as [G3 Hh].
    apply andb_true_iff in Hh. destruct Hh as [G4 G5].
    rewrite (hex_char_not_hyphen _ G1), (hex_char_not_hyphen _ G2),
      (hex_char_not_hyphen _ G3), (hex_char_not_hyphen _ G4),
      (hex_char_not_hyphen _ G5).
    change (filter (fun x => negb (45 =? x)) [45]) with (@nil Z).
    cbn [app]. apply regroup. }
  rewrite R4, L. cbn [Nat.eqb negb].
  unfold int_16. destruct h as [|c h]; [discriminate L|].
  rewrite P. cbn [outcome_bind]. unfold check_int.
  change (Z.shiftl 1 128) with (2 ^ 128).
  replace ((0 <=? 0 * 16 ^ Z.of_nat 32 + n) && (0 * 16 ^ Z.of_nat 32 + n <? 2 ^ 128))
    with true
    by (symmetry; apply andb_true_iff; split; [apply Z.leb_le | apply Z.ltb_lt]; lia).
  cbn [negb outcome_bind]. do 2 f_equal; lia.
Qed.

(** X5.  Every identifier [get_thread_id] returns is one the [UUID]
    constructor accepts, and the UUID it parses to prints as that same
    text: the identifier is already in the form [str(UUID(...))] gives. *)
Theorem get_thread_id_parses_back :
  forall (sid : option str) (World : Type)
         (answer : forall X, Call X -> World -> outcome X * World) (w : World)
         (out : str),
    result answer (get_thread_id sid) w = Returned out ->
    exists u, UUID_hex out = Returned u /\ UUID_str u = out.
Proof.
  intros sid World answer w out H.
  destruct (returned_stamp answer sid w out H) as (i & Hi & ->).
  eexists. split; [|reflexivity].
  apply UUID_hex_str. simpl. apply stamp_range; [destruct sid; auto | exact Hi].
Qed.

(** [get_thread_id_parses_back] at the session id "abc123". *)
Lemma get_thread_id_parses_back_witness :
  result Sim.answer (get_thread_id (Some (lit "abc123"))) Sim.initial
  = Returned (lit "0d578a70-6e15-559e-84db-77e9d0956ee9")
  /\ exists u, UUID_hex (lit "0d578a70-6e15-559e-84db-77e9d0956ee9") = Returned u
               /\ UUID_str u = lit "0d578a70-6e15-559e-84db-77e9d0956ee9".
Proof.
  assert (R : result Sim.answer (get_thread_id (Some (lit "abc123"))) Sim.initial
              = Returned (lit "0d578a70-6e15-559e-84db-77e9d0956ee9"))
    by (vm_compute; reflexivity).
  split; [exact R|].
  exact (get_thread_id_parses_back _ _ _ _ _ R).
Defined.

(** ** More on the startup *)

Ltac walk_from_derivation answer finish :=
  rewrite exec_bind, exec_get_thread_id_present;
  match goal with
  | |- context [derived ?s] => destruct (derived s) eqn:?
  end; [|finish];
  cbn [exec app];
  do 3 (answer_cases answer; [|finish]);
  rewrite exec_bind, exec_lift;
  match goal with
  | |- context [dict_get ?d ?k] => destruct (dict_get d k) eqn:?
  end; [|finish];
  cbn [exec app];
  do 11 (answer_cases answer; [|finish]);
  cbn [bind call exec]; answer_cases answer; finish.

Ltac walk answer finish :=
  unfold calls, result, entrypoint, Assistant; cbn [bind call exec];
  do 3 (answer_cases answer; [|finish]);
  walk_from_derivation answer finish.

Lemma is_prefix_In (l full : list string) (x : string) :
  is_prefix l full = true -> In x l -> In x full.
Proof.
  revert full. induction l as [|y l IH]; intros [|z full] H Hin;
    try contradiction; try discriminate.
  simpl in H. apply andb_true_iff in H. destruct H as [E H].
  apply String.eqb_eq in E. subst z.
  destruct Hin as [->|Hin]; [now left | right; now apply IH].
Qed.

Lemma entrypoint_calls_prefix
    (instructions : str) (remote_graph_url : option str) (ctx : JobContext)
    {World} (answer : forall X, Call X -> World -> outcome X * World) (w : World) :
  is_prefix
    (map call_name (calls answer (entrypoint instructions remote_graph_url ctx) w))
    STARTUP_ORDER = true.
Proof. walk answer ltac:(reflexivity). Qed.

(** X6.  Whatever the world, [entrypoint] itself never prints to the
    console, never draws entropy, never asks for a reply, never loads the
    VAD model and never touches the metrics: none of these calls occurs in
    a run of it. *)
Theorem entrypoint_never_calls :
  forall (instructions : str) (remote_graph_url : option str) (ctx : JobContext)
         (World : Type) (answer : forall X, Call X -> World -> outcome X * World)
         (w : World) (c : called),
    In c (calls answer (entrypoint instructions remote_graph_url ctx) w) ->
    ~ In (call_name c)
        ["print"; "os.urandom"; "session.generate_reply"; "silero.VAD.load";
         "metrics.log_metrics"; "usage_collector.collect"]%string.
Proof.
  intros instructions remote_graph_url ctx World answer w c Hc Hbad.
  pose proof (entrypoint_calls_prefix instructions remote_graph_url ctx answer w) as P.
  apply (in_map call_name) in Hc.
  pose proof (is_prefix_In _ _ _ P Hc) as Ho.
  revert Hbad Ho. generalize (call_name c). intros name Hbad Ho.
  cbn [In] in Hbad.
  repeat (destruct Hbad as [<-|Hbad];
          [cbn [In STARTUP_ORDER] in Ho;
           repeat (destruct Ho as [Ho|Ho]; [discriminate Ho|]); exact Ho|]).
  exact Hbad.
Qed.

(** [entrypoint_never_calls] on the last call of the completed run in the
    simulated world. *)
Lemma entrypoint_never_calls_witness :
  In (Called (session_start 4%nat (room Sim.job) 8%nat 10%nat))
    (calls Sim.answer (entrypoint (lit "You are Kai") None Sim.job) Sim.initial)
  /\ ~ In "session.start"%string
         ["print"; "os.urandom"; "session.generate_reply"; "silero.VAD.load";
          "metrics.log_metrics"; "usage_collector.collect"]%string.
Proof.
  assert (H : In (Called (session_start 4%nat (room Sim.job) 8%nat 10%nat))
                (calls Sim.answer (entrypoint (lit "You are Kai") None Sim.job)
                   Sim.initial)).
  { vm_compute. do 17 right. left. reflexivity. }
  split; [exact H|].
  exact (entrypoint_never_calls _ _ _ _ _ _ _ H).
Defined.

Ltac members_of H :=
  repeat match type of H with
         | _ \/ _ => destruct H as [H|H]
         | False => contradiction
         end.

(** The thread identifiers of a run come from the participant the wait
    returned. *)
Lemma entrypoint_thread_ids
    (instructions : str) (remote_graph_url : option str) (ctx : JobContext)
    {World} (answer : forall X, Call X -> World -> outcome X * World) (w : World)
    (participant : Participant) :
  waited answer ctx w participant ->
  forall t,
    In t (thread_ids
            (calls answer (entrypoint instructions remote_graph_url ctx) w)) ->
    derived (sid participant) = Returned t.
Proof.
  intros (w1 & w2 & w3 & H1 & H2 & H3).
  unfold calls, entrypoint, Assistant. cbn [bind call exec].
  rewrite H1, H2, H3.
  walk_from_derivation answer
    ltac:(cbn [snd thread_ids flat_map app In]; intros t Ht; members_of Ht;
          congruence).
Qed.

Lemma derived_version_5 (s t : str) :
  derived s = Returned t -> canonical_uuid_text t /\ nth 14 t 0 = 53.
Proof.
  intros H. split.
  - destruct (derived_range s t H) as (u & -> & Hu). now apply UUID_str_canonical.
  - assert (R : result (Quiet.answer (mkParticipant s s)) (get_thread_id (Some s)) tt
                = Returned t).
    { unfold result. rewrite exec_get_thread_id_present. cbn [fst]. exact H. }
    exact (proj1 (returned_digits _ (Some s) tt t R)).
Qed.

(** X7.  The thread identifier that [entrypoint] hands to the graph adapter
    is the one derived from the session id of the participant that the wait
    returned: it is canonical UUID text of version 5, never a random one. *)
Theorem entrypoint_thread_id_of_participant :
  forall (instructions : str) (remote_graph_url : option str) (ctx : JobContext)
         (World : Type) (answer : forall X, Call X -> World -> outcome X * World)
         (w : World) (participant : Participant) (t : str),
    waited answer ctx w participant ->
    In t (thread_ids
            (calls answer (entrypoint instructions remote_graph_url ctx) w)) ->
    derived (sid participant) = Returned t
    /\ canonical_uuid_text t
    /\ nth 14 t 0 = 53.
Proof.
  intros instructions remote_graph_url ctx World answer w participant t Hw Ht.
  pose proof (entrypoint_thread_ids instructions remote_graph_url ctx answer w
                participant Hw t Ht) as D.
  split; [exact D | exact (derived_version_5 _ _ D)].
Qed.

Lemma sim_waited :
  waited Sim.answer Sim.job Sim.initial
    (mkParticipant (lit "PA_abc123") (lit "alice")).
Proof. do 3 eexists. repeat split. Qed.

(** [entrypoint_thread_id_of_participant] in the simulated world, where the
    participant PA_abc123 joins. *)
Lemma entrypoint_thread_id_of_participant_witness :
  waited Sim.answer Sim.job Sim.initial
    (mkParticipant (lit "PA_abc123") (lit "alice"))
  /\ In (lit "7ba19146-905a-551d-bf1f-b62463057c01")
       (thread_ids
          (calls Sim.answer (entrypoint (lit "You are Kai") None Sim.job)
             Sim.initial))
  /\ derived (lit "PA_abc123") = Returned (lit "7ba19146-905a-551d-bf1f-b62463057c01")
  /\ canonical_uuid_text (lit "7ba19146-905a-551d-bf1f-b62463057c01")
  /\ nth 14 (lit "7ba19146-905a-551d-bf1f-b62463057c01") 0 = 53.
Proof.
  assert (H : In (lit "7ba19146-905a-551d-bf1f-b62463057c01")
                (thread_ids
                   (calls Sim.answer (entrypoint (lit "You are Kai") None Sim.job)
                      Sim.initial))).
  { vm_compute. left. reflexivity. }
  split; [exact sim_waited|]. split; [exact H|].
  exact (entrypoint_thread_id_of_participant _ _ _ _ _ _ _ _ sim_waited H).
Defined.

(** X8.  Two runs of [entrypoint], in whatever worlds and rooms, whose
    participants have the same session id hand the same thread identifier
    to the graph adapter: a participant who comes back with its session id
    is put on its earlier thread. *)
Theorem entrypoint_same_sid_same_thread :
  forall (i1 i2 : str) (url1 url2 : option str) (ctx1 ctx2 : JobContext)
         (W1 W2 : Type)
         (a1 : forall X, Call X -> W1 -> outcome X * W1)
         (a2 : forall X, Call X -> W2 -> outcome X * W2)
         (w1 : W1) (w2 : W2) (p1 p2 : Participant) (t1 t2 : str),
    waited a1 ctx1 w1 p1 -> waited a2 ctx2 w2 p2 ->
    sid p1 = sid p2 ->
    In t1 (thread_ids (calls a1 (entrypoint i1 url1 ctx1) w1)) ->
    In t2 (thread_ids (calls a2 (entrypoint i2 url2 ctx2) w2)) ->
    t1 = t2.
Proof.
  intros i1 i2 url1 url2 ctx1 ctx2 W1 W2 a1 a2 w1 w2 p1 p2 t1 t2
         Hw1 Hw2 Hs H1 H2.
  pose proof (entrypoint_thread_ids i1 url1 ctx1 a1 w1 p1 Hw1 t1 H1) as D1.
  pose proof (entrypoint_thread_ids i2 url2 ctx2 a2 w2 p2 Hw2 t2 H2) as D2.
  rewrite Hs, D2 in D1. injection D1 as D1. symmetry. exact D1.
Qed.

Lemma quiet_waited (joining : Participant) (ctx : JobContext) :
  waited (Quiet.answer joining) ctx tt joining.
Proof. do 3 eexists. repeat split. Qed.

(** [entrypoint_same_sid_same_thread] on a run in the simulated world and
    one in the quiet world, in different rooms and under different names,
    with the session id PA_abc123 in both. *)
Lemma entrypoint_same_sid_same_thread_witness :
  waited Sim.answer Sim.job Sim.initial
    (mkParticipant (lit "PA_abc123") (lit "alice"))
  /\ waited (Quiet.answer (mkParticipant (lit "PA_abc123") (lit "bob")))
       (mkJobContext (mkRoom (lit "hall")) (mkJobProcess [("vad"%string, 3%nat)]))
       tt (mkParticipant (lit "PA_abc123") (lit "bob"))
  /\ In (lit "7ba19146-905a-551d-bf1f-b62463057c01")
       (thread_ids
          (calls Sim.answer (entrypoint (lit "You are Kai") None Sim.job)
             Sim.initial))
  /\ In (lit "7ba19146-905a-551d-bf1f-b62463057c01")
       (thread_ids
          (calls (Quiet.answer (mkParticipant (lit "PA_abc123") (lit "bob")))
             (entrypoint (lit "You are Kai") (Some (lit "http://graph"))
                (mkJobContext (mkRoom (lit "hall"))
                   (mkJobProcess [("vad"%string, 3%nat)])))
             tt))
  /\ lit "7ba19146-905a-551d-bf1f-b62463057c01"
     = lit "7ba19146-905a-551d-bf1f-b62463057c01".
Proof.
  assert (H1 : In (lit "7ba19146-905a-551d-bf1f-b62463057c01")
                 (thread_ids
                    (calls Sim.answer (entrypoint (lit "You are Kai") None Sim.job)
                       Sim.initial))).
  { vm_compute. left. reflexivity. }
  assert (H2 : In (lit "7ba19146-905a-551d-bf1f-b62463057c01")
                 (thread_ids
                    (calls (Quiet.answer (mkParticipant (lit "PA_abc123") (lit "bob")))
                       (entrypoint (lit "You are Kai") (Some (lit "http://graph"))
                          (mkJobContext (mkRoom (lit "hall"))
                             (mkJobProcess [("vad"%string, 3%nat)])))
                       tt))).
  { vm_compute. left. reflexivity. }
  split; [exact sim_waited|]. split; [apply quiet_waited|].
  split; [exact H1|]. split; [exact H2|].
  exact (entrypoint_same_sid_same_thread
           (lit "You are Kai") (lit "You are Kai") None (Some (lit "http://graph"))
           Sim.job
           (mkJobContext (mkRoom (lit "hall")) (mkJobProcess [("vad"%string, 3%nat)]))
           Sim.World unit Sim.answer
           (Quiet.answer (mkParticipant (lit "PA_abc123") (lit "bob")))
           Sim.initial tt
           (mkParticipant (lit "PA_abc123") (lit "alice"))
           (mkParticipant (lit "PA_abc123") (lit "bob"))
           (lit "7ba19146-905a-551d-bf1f-b62463057c01")
           (lit "7ba19146-905a-551d-bf1f-b62463057c01")
           sim_waited (quiet_waited _ _) eq_refl H1 H2).
Defined.

(** Identifiers derived from two different session ids coincide only on a
    collision of the hash. *)
Lemma derived_collision (s1 s2 t : str) :
  well_formed s1 -> well_formed s2 -> s1 <> s2 ->
  derived s1 = Returned t -> derived s2 = Returned t ->
  exists e1 e2,
    utf8_encode s1 = Returned e1 /\ utf8_encode s2 = Returned e2
    /\ hashed e1 <> hashed e2
    /\ digest_bits (hashed e1) = digest_bits (hashed e2).
Proof.
  intros W1 W2 Hne D1 D2.
  destruct (derived_returned _ _ D1) as [e1 E1].
  destruct (derived_returned _ _ D2) as [e2 E2].
  exists e1, e2. split; [exact E1|]. split; [exact E2|]. split.
  - unfold hashed. intros H. apply app_inv_head in H. subst e2.
    apply Hne. exact (utf8_encode_from_inj s1 s2 _ _ _ W1 W2 E1 E2).
  - rewrite (derived_encoded _ _ E1) in D1. rewrite (derived_encoded _ _ E2) in D2.
    rewrite <- D2 in D1. injection D1 as D1.
    pose proof (int_from_bytes_range (firstn 16 (SHA1.digest (hashed e1)))) as B1.
    pose proof (int_from_bytes_range (firstn 16 (SHA1.digest (hashed e2)))) as B2.
    rewrite digest_prefix_length in B1, B2.
    change (256 ^ Z.of_nat 16) with (2 ^ 128) in B1, B2.
    apply UUID_str_inj in D1; try (simpl; apply stamp_range; auto).
    injection D1 as D1. unfold digest_bits.
    now apply (stamp_eq_iff 5); auto.
Qed.

(** X9.  Two runs of [entrypoint] whose participants have different session
    ids hand different thread identifiers to the graph adapter, unless
    SHA-1 of the two hashed messages agrees on the 122 bits an identifier
    keeps: short of such a collision no two participants share a thread. *)
Theorem entrypoint_distinct_sid_distinct_thread :
  forall (i1 i2 : str) (url1 url2 : option str) (ctx1 ctx2 : JobContext)
         (W1 W2 : Type)
         (a1 : forall X, Call X -> W1 -> outcome X * W1)
         (a2 : forall X, Call X -> W2 -> outcome X * W2)
         (w1 : W1) (w2 : W2) (p1 p2 : Participant) (t1 t2 : str),
    waited a1 ctx1 w1 p1 -> waited a2 ctx2 w2 p2 ->
    well_formed (sid p1) -> well_formed (sid p2) -> sid p1 <> sid p2 ->
    (forall e1 e2,
        utf8_encode (sid p1) = Returned e1 -> utf8_encode (sid p2) = Returned e2 ->
        digest_bits (hashed e1) <> digest_bits (hashed e2)) ->
    In t1 (thread_ids (calls a1 (entrypoint i1 url1 ctx1) w1)) ->
    In t2 (thread_ids (calls a2 (entrypoint i2 url2 ctx2) w2)) ->
    t1 <> t2.
Proof.
  intros i1 i2 url1 url2 ctx1 ctx2 W1 W2 a1 a2 w1 w2 p1 p2 t1 t2
         Hw1 Hw2 Wf1 Wf2 Hne Hnc H1 H2 Heq.
  pose proof (entrypoint_thread_ids i1 url1 ctx1 a1 w1 p1 Hw1 t1 H1) as D1.
  pose proof (entrypoint_thread_ids i2 url2 ctx2 a2 w2 p2 Hw2 t2 H2) as D2.
  rewrite <- Heq in D2.
  destruct (derived_collision _ _ _ Wf1 Wf2 Hne D1 D2) as (e1 & e2 & E1 & E2 & _ & Hc).
  exact (Hnc e1 e2 E1 E2 Hc).
Qed.

(** [entrypoint_distinct_sid_distinct_thread] on two runs in the quiet
    world, with the session ids PA_abc123 and PA_abc124. *)
Lemma entrypoint_distinct_sid_distinct_thread_witness :
  waited (Quiet.answer (mkParticipant (lit "PA_abc123") (lit "bob"))) Sim.job tt
    (mkParticipant (lit "PA_abc123") (lit "bob"))
  /\ waited (Quiet.answer (mkParticipant (lit "PA_abc124") (lit "bob"))) Sim.job tt
       (mkParticipant (lit "PA_abc124") (lit "bob"))
  /\ well_formed (lit "PA_abc123") /\ well_formed (lit "PA_abc124")
  /\ lit "PA_abc123" <> lit "PA_abc124"
  /\ (forall e1 e2,
         utf8_encode (lit "PA_abc123") = Returned e1 ->
         utf8_encode (lit "PA_abc124") = Returned e2 ->
         digest_bits (hashed e1) <> digest_bits (hashed e2))
  /\ In (lit "7ba19146-905a-551d-bf1f-b62463057c01")
       (thread_ids
          (calls (Quiet.answer (mkParticipant (lit "PA_abc123") (lit "bob")))
             (entrypoint (lit "You are Kai") None Sim.job) tt))
  /\ In (lit "a2a9f4bb-07e6-5ac4-ad7e-b7b71c4170b4")
       (thread_ids
          (calls (Quiet.answer (mkParticipant (lit "PA_abc124") (lit "bob")))
             (entrypoint (lit "You are Kai") None Sim.job) tt))
  /\ lit "7ba19146-905a-551d-bf1f-b62463057c01"
     <> lit "a2a9f4bb-07e6-5ac4-ad7e-b7b71c4170b4".
Proof.
  assert (Hnc : forall e1 e2,
             utf8_encode (lit "PA_abc123") = Returned e1 ->
             utf8_encode (lit "PA_abc124") = Returned e2 ->
             digest_bits (hashed e1) <> digest_bits (hashed e2)).
  { intros e1 e2 E1 E2.
    assert (E1' : utf8_encode (lit "PA_abc123")
                  = Returned [x50; x41; x5f; x61; x62; x63; x31; x32; x33])
      by (vm_compute; reflexivity).
    assert (E2' : utf8_encode (lit "PA_abc124")
                  = Returned [x50; x41; x5f; x61; x62; x63; x31; x32; x34])
      by (vm_compute; reflexivity).
    rewrite E1' in E1. rewrite E2' in E2.
    injection E1 as <-. injection E2 as <-. vm_compute. discriminate. }
  assert (H1 : In (lit "7ba19146-905a-551d-bf1f-b62463057c01")
                 (thread_ids
                    (calls (Quiet.answer (mkParticipant (lit "PA_abc123") (lit "bob")))
                       (entrypoint (lit "You are Kai") None Sim.job) tt))).
  { vm_compute. left. reflexivity. }
  assert (H2 : In (lit "a2a9f4bb-07e6-5ac4-ad7e-b7b71c4170b4")
                 (thread_ids
                    (calls (Quiet.answer (mkParticipant (lit "PA_abc124") (lit "bob")))
                       (entrypoint (lit "You are Kai") None Sim.job) tt))).
  { vm_compute. left. reflexivity. }
  assert (N : lit "PA_abc123" <> lit "PA_abc124") by discriminate.
  split; [apply quiet_waited|]. split; [apply quiet_waited|].
  split; [apply lit_well_formed|]. split; [apply lit_well_formed|].
  split; [exact N|]. split; [exact Hnc|]. split; [exact H1|]. split; [exact H2|].
  exact (entrypoint_distinct_sid_distinct_thread
           (lit "You are Kai") (lit "You are Kai") None None Sim.job Sim.job
           unit unit
           (Quiet.answer (mkParticipant (lit "PA_abc123") (lit "bob")))
           (Quiet.answer (mkParticipant (lit "PA_abc124") (lit "bob")))
           tt tt
           (mkParticipant (lit "PA_abc123") (lit "bob"))
           (mkParticipant (lit "PA_abc124") (lit "bob"))
           (lit "7ba19146-905a-551d-bf1f-b62463057c01")
           (lit "a2a9f4bb-07e6-5ac4-ad7e-b7b71c4170b4")
           (quiet_waited _ _) (quiet_waited _ _)
           (lit_well_formed "PA_abc123") (lit_well_formed "PA_abc124")
           N Hnc H1 H2).
Defined.

(** The VAD handles that reach [AgentSession] are what the process holds
    under "vad". *)
Lemma entrypoint_session_vads
    (instructions : str) (remote_graph_url : option str) (ctx : JobContext)
    {World} (answer : forall X, Call X -> World -> outcome X * World) (w : World)
    (vad : ref) :
  dict_get (userdata (proc ctx)) "vad" = Returned vad ->
  forall v,
    In v (session_vads
            (calls answer (entrypoint instructions remote_graph_url ctx) w)) ->
    v = vad.
Proof.
  intros Hv.
  walk answer
    ltac:(cbn [snd session_vads flat_map app In]; intros v' Hin; members_of Hin;
          rewrite Hv in *;
          match goal with
          | E : Returned _ = Returned _ |- _ => injection E as E; now subst
          end).
Qed.

(** X10.  [prewarm] and [entrypoint] fit together: in a job whose process
    went through [prewarm], whatever else the process holds, the VAD model
    that [entrypoint] gives the session is the one [prewarm] loaded. *)
Theorem entrypoint_uses_prewarmed_vad :
  forall (instructions : str) (remote_graph_url : option str) (in_room : Room)
         (proc proc' : JobProcess)
         (W0 W1 : Type)
         (a0 : forall X, Call X -> W0 -> outcome X * W0)
         (a1 : forall X, Call X -> W1 -> outcome X * W1)
         (w0 w0' : W0) (w1 : W1) (loaded v : ref),
    a0 _ silero_VAD_load w0 = (Returned loaded, w0') ->
    result a0 (prewarm proc) w0 = Returned proc' ->
    In v (session_vads
            (calls a1 (entrypoint instructions remote_graph_url
                         (mkJobContext in_room proc')) w1)) ->
    v = loaded.
Proof.
  intros instructions remote_graph_url in_room proc proc' W0 W1 a0 a1
         w0 w0' w1 loaded v Hl Hp Hv.
  unfold result, prewarm, call in Hp. cbn [bind exec] in Hp.
  rewrite Hl in Hp. cbn [fst] in Hp. injection Hp as <-.
  refine (entrypoint_session_vads instructions remote_graph_url
            (mkJobContext in_room
               (mkJobProcess (dict_set (userdata proc) "vad" loaded)))
            a1 w1 loaded _ v Hv).
  change (dict_get (dict_set (userdata proc) "vad" loaded) "vad" = Returned loaded).
  apply dict_get_set_same.
Qed.

(** [entrypoint_uses_prewarmed_vad] in the simulated world: the process is
    prewarmed there, which loads object 1, and the job then runs in the
    quiet world. *)
Lemma entrypoint_uses_prewarmed_vad_witness :
  Sim.answer _ silero_VAD_load Sim.initial
  = (Returned 1%nat, snd (Sim.fresh Sim.initial))
  /\ result Sim.answer (prewarm (mkJobProcess [("vad"%string, 9%nat)])) Sim.initial
     = Returned (mkJobProcess [("vad"%string, 1%nat)])
  /\ In 1%nat
       (session_vads
          (calls (Quiet.answer (mkParticipant (lit "PA_abc123") (lit "bob")))
             (entrypoint (lit "You are Kai") None
                (mkJobContext (mkRoom (lit "hall"))
                   (mkJobProcess [("vad"%string, 1%nat)])))
             tt))
  /\ 1%nat = 1%nat.
Proof.
  assert (H : In 1%nat
                (session_vads
                   (calls (Quiet.answer (mkParticipant (lit "PA_abc123") (lit "bob")))
                      (entrypoint (lit "You are Kai") None
                         (mkJobContext (mkRoom (lit "hall"))
                            (mkJobProcess [("vad"%string, 1%nat)])))
                      tt))).
  { vm_compute. left. reflexivity. }
  split; [reflexivity|]. split; [reflexivity|]. split; [exact H|].
  exact (entrypoint_uses_prewarmed_vad
           (lit "You are Kai") None (mkRoom (lit "hall"))
           (mkJobProcess [("vad"%string, 9%nat)])
           (mkJobProcess [("vad"%string, 1%nat)])
           Sim.World unit Sim.answer
           (Quiet.answer (mkParticipant (lit "PA_abc123") (lit "bob")))
           Sim.initial (snd (Sim.fresh Sim.initial)) tt 1%nat 1%nat
           eq_refl eq_refl H).
Defined.

(** Without "vad" in the process a run stops at the lookup at the latest. *)
Lemma entrypoint_stops_without_vad
    (instructions : str) (remote_graph_url : option str) (ctx : JobContext)
    {World} (answer : forall X, Call X -> World -> outcome X * World) (w : World)
    (e : exn) :
  dict_get (userdata (proc ctx)) "vad" = Raised e ->
  result answer (entrypoint instructions remote_graph_url ctx) w <> Returned tt
  /\ is_prefix
       (map call_name
          (calls answer (entrypoint instructions remote_graph_url ctx) w))
       (firstn 6 STARTUP_ORDER) = true.
Proof.
  intros Hv.
  walk answer
    ltac:(first [ exfalso; rewrite Hv in *; discriminate
                | cbn [fst snd]; split; [discriminate | reflexivity] ]).
Qed.

(** X11.  In a job whose process holds nothing under "vad", as when
    [prewarm] did not run, [entrypoint] never completes and never gets to
    the adapter, the session, the observers or the start: its calls end
    with the construction of the graph handle at the latest.  The lookup's
    error is [KeyError] for "vad". *)
Theorem entrypoint_without_vad :
  forall (instructions : str) (remote_graph_url : option str) (ctx : JobContext)
         (World : Type) (answer : forall X, Call X -> World -> outcome X * World)
         (w : World) (e : exn),
    dict_get (userdata (proc ctx)) "vad" = Raised e ->
    e = KeyError "vad"
    /\ result answer (entrypoint instructions remote_graph_url ctx) w <> Returned tt
    /\ is_prefix
         (map call_name
            (calls answer (entrypoint instructions remote_graph_url ctx) w))
         ["logger.info"; "ctx.connect"; "ctx.wait_for_participant"; "logger.info";
          "metrics.UsageCollector"; "RemoteGraph"]%string = true.
Proof.
  intros instructions remote_graph_url ctx World answer w e Hv.
  split; [exact (dict_get_raises _ _ _ Hv)|].
  exact (entrypoint_stops_without_vad instructions remote_graph_url ctx answer w e Hv).
Qed.

(** [entrypoint_without_vad] in the simulated world, on a process that
    holds only a cache. *)
Lemma entrypoint_without_vad_witness :
  dict_get (userdata (proc (mkJobContext (mkRoom (lit "hall"))
                             (mkJobProcess [("cache"%string, 7%nat)])))) "vad"
  = Raised (KeyError "vad")
  /\ result Sim.answer
       (entrypoint (lit "You are Kai") None
          (mkJobContext (mkRoom (lit "hall")) (mkJobProcess [("cache"%string, 7%nat)])))
       Sim.initial
     = Raised (KeyError "vad")
  /\ KeyError "vad" = KeyError "vad"
  /\ result Sim.answer
       (entrypoint (lit "You are Kai") None
          (mkJobContext (mkRoom (lit "hall")) (mkJobProcess [("cache"%string, 7%nat)])))
       Sim.initial
     <> Returned tt
  /\ is_prefix
       (map call_name
          (calls Sim.answer
             (entrypoint (lit "You are Kai") None
                (mkJobContext (mkRoom (lit "hall"))
                   (mkJobProcess [("cache"%string, 7%nat)])))
             Sim.initial))
       ["logger.info"; "ctx.connect"; "ctx.wait_for_participant"; "logger.info";
        "metrics.UsageCollector"; "RemoteGraph"]%string = true.
Proof.
  split; [reflexivity|]. split; [vm_compute; reflexivity|].
  exact (entrypoint_without_vad (lit "You are Kai") None
           (mkJobContext (mkRoom (lit "hall")) (mkJobProcess [("cache"%string, 7%nat)]))
           Sim.World Sim.answer Sim.initial (KeyError "vad") eq_refl).
Defined.

Lemma derived_encodable (s : str) : encodable s -> exists t, derived s = Returned t.
Proof.
  intros He. destruct (utf8_encode_from_encodable s 0 He) as [encoded E].
  eexists. exact (derived_encoded s encoded E).
Qed.

Section Cooperative.

Context {World : Type}.
Variable answer : forall X, Call X -> World -> outcome X * World.
Hypothesis Hall : always_returns answer.
Hypothesis Henc :
  forall w participant w',
    answer _ ctx_wait_for_participant w = (Returned participant, w') ->
    encodable (sid participant).

Ltac no_failure :=
  exfalso;
  first
    [ match goal with
      | E : answer ?X ?c ?w = (Raised _, _) |- _ =>
          destruct (Hall X c w) as (? & ? & Hr); rewrite Hr in E; discriminate E
      end
    | match goal with
      | E : answer _ ctx_wait_for_participant _ = (Returned ?p, _),
        D : derived (sid ?p) = Raised _ |- _ =>
          destruct (derived_encodable _ (Henc _ _ _ E)) as [? Hd];
          rewrite Hd in D; discriminate D
      end ].

Lemma entrypoint_cooperative
    (instructions : str) (remote_graph_url : option str) (ctx : JobContext)
    (w : World) :
  match dict_get (userdata (proc ctx)) "vad" with
  | Returned vad =>
      result answer (entrypoint instructions remote_graph_url ctx) w = Returned tt
      /\ map call_name
           (calls answer (entrypoint instructions remote_graph_url ctx) w)
         = STARTUP_ORDER
      /\ session_vads
           (calls answer (entrypoint instructions remote_graph_url ctx) w) = [vad]
      /\ exists t,
          thread_ids
            (calls answer (entrypoint instructions remote_graph_url ctx) w) = [t]
  | Raised e =>
      result answer (entrypoint instructions remote_graph_url ctx) w = Raised e
      /\ map call_name
           (calls answer (entrypoint instructions remote_graph_url ctx) w)
         = firstn 6 STARTUP_ORDER
  end.
Proof.
  walk answer
    ltac:(first
            [ no_failure
            | cbn [fst snd map call_name session_vads thread_ids flat_map app];
              repeat split;
              first [ reflexivity
                    | match goal with
                      | x : unit |- _ = Returned tt => destruct x; reflexivity
                      end
                    | eexists; reflexivity ] ]).
Qed.

End Cooperative.

(** X12.  When no call raises, the participant's session id is free of
    surrogates and the process holds a VAD model, [entrypoint] completes:
    it makes its eighteen calls, each once and in the startup order, builds
    one adapter and gives the session that VAD model. *)
Theorem entrypoint_completes :
  forall (instructions : str) (remote_graph_url : option str) (ctx : JobContext)
         (World : Type) (answer : forall X, Call X -> World -> outcome X * World)
         (w : World) (vad : ref),
    always_returns answer ->
    (forall w0 participant w0',
        answer _ ctx_wait_for_participant w0 = (Returned participant, w0') ->
        encodable (sid participant)) ->
    dict_get (userdata (proc ctx)) "vad" = Returned vad ->
    result answer (entrypoint instructions remote_graph_url ctx) w = Returned tt
    /\ map call_name (calls answer (entrypoint instructions remote_graph_url ctx) w)
       = STARTUP_ORDER
    /\ session_vads (calls answer (entrypoint instructions remote_graph_url ctx) w)
       = [vad]
    /\ exists t,
        thread_ids (calls answer (entrypoint instructions remote_graph_url ctx) w)
        = [t].
Proof.
  intros instructions remote_graph_url ctx World answer w vad Hall Henc Hv.
  pose proof (entrypoint_cooperative answer Hall Henc instructions remote_graph_url
                ctx w) as H.
  rewrite Hv in H. exact H.
Qed.

Lemma quiet_always_returns (joining : Participant) :
  always_returns (Quiet.answer joining).
Proof. intros X c w. destruct c; eexists; eexists; reflexivity. Qed.

Lemma quiet_encodable (name_ : string) (id : str) :
  forall (w0 : unit) (participant : Participant) (w0' : unit),
    Quiet.answer (mkParticipant (lit name_) id) _ ctx_wait_for_participant w0
    = (Returned participant, w0') ->
    encodable (sid participant).
Proof.
  intros w0 participant w0' H. injection H as <- _. apply lit_encodable.
Qed.

(** [entrypoint_completes] in the quiet world. *)
Lemma entrypoint_completes_witness :
  always_returns (Quiet.answer (mkParticipant (lit "PA_abc123") (lit "bob")))
  /\ (forall w0 participant w0',
         Quiet.answer (mkParticipant (lit "PA_abc123") (lit "bob")) _
           ctx_wait_for_participant w0 = (Returned participant, w0') ->
         encodable (sid participant))
  /\ dict_get (userdata (proc Sim.job)) "vad" = Returned 0%nat
  /\ result (Quiet.answer (mkParticipant (lit "PA_abc123") (lit "bob")))
       (entrypoint (lit "You are Kai") None Sim.job) tt = Returned tt
  /\ map call_name
       (calls (Quiet.answer (mkParticipant (lit "PA_abc123") (lit "bob")))
          (entrypoint (lit "You are Kai") None Sim.job) tt)
     = STARTUP_ORDER
  /\ session_vads
       (calls (Quiet.answer (mkParticipant (lit "PA_abc123") (lit "bob")))
          (entrypoint (lit "You are Kai") None Sim.job) tt)
     = [0%nat]
  /\ exists t,
      thread_ids
        (calls (Quiet.answer (mkParticipant (lit "PA_abc123") (lit "bob")))
           (entrypoint (lit "You are Kai") None Sim.job) tt)
      = [t].
Proof.
  split; [apply quiet_always_returns|]. split; [apply quiet_encodable|].
  split; [reflexivity|].
  exact (entrypoint_completes (lit "You are Kai") None Sim.job unit
           (Quiet.answer (mkParticipant (lit "PA_abc123") (lit "bob"))) tt 0%nat
           (quiet_always_returns _) (quiet_encodable _ _) eq_refl).
Defined.

(** X13.  When no call raises and the participant's session id is free of
    surrogates, a job whose process holds nothing under "vad" fails with
    [KeyError] for "vad", and only after it has connected, waited for the
    participant and constructed the usage collector and the graph handle:
    those six calls are all it makes. *)
Theorem entrypoint_missing_vad_raises :
  forall (instructions : str) (remote_graph_url : option str) (ctx : JobContext)
         (World : Type) (answer : forall X, Call X -> World -> outcome X * World)
         (w : World) (e : exn),
    always_returns answer ->
    (forall w0 participant w0',
        answer _ ctx_wait_for_participant w0 = (Returned participant, w0') ->
        encodable (sid participant)) ->
    dict_get (userdata (proc ctx)) "vad" = Raised e ->
    result answer (entrypoint instructions remote_graph_url ctx) w
    = Raised (KeyError "vad")
    /\ map call_name (calls answer (entrypoint instructions remote_graph_url ctx) w)
       = ["logger.info"; "ctx.connect"; "ctx.wait_for_participant"; "logger.info";
          "metrics.UsageCollector"; "RemoteGraph"]%string.
Proof.
  intros instructions remote_graph_url ctx World answer w e Hall Henc Hv.
  pose proof (entrypoint_cooperative answer Hall Henc instructions remote_graph_url
                ctx w) as H.
  rewrite Hv in H. rewrite (dict_get_raises _ _ _ Hv) in H. exact H.
Qed.

(** [entrypoint_missing_vad_raises] in the quiet world, on a process that
    was not prewarmed. *)
Lemma entrypoint_missing_vad_raises_witness :
  always_returns (Quiet.answer (mkParticipant (lit "PA_abc123") (lit "bob")))
  /\ (forall w0 participant w0',
         Quiet.answer (mkParticipant (lit "PA_abc123") (lit "bob")) _
           ctx_wait_for_participant w0 = (Returned participant, w0') ->
         encodable (sid participant))
  /\ dict_get (userdata (proc (mkJobContext (mkRoom (lit "hall")) (mkJobProcess []))))
       "vad" = Raised (KeyError "vad")
  /\ result (Quiet.answer (mkParticipant (lit "PA_abc123") (lit "bob")))
       (entrypoint (lit "You are Kai") None
          (mkJobContext (mkRoom (lit "hall")) (mkJobProcess []))) tt
     = Raised (KeyError "vad")
  /\ map call_name
       (calls (Quiet.answer (mkParticipant (lit "PA_abc123") (lit "bob")))
          (entrypoint (lit "You are Kai") None
             (mkJobContext (mkRoom (lit "hall")) (mkJobProcess []))) tt)
     = ["logger.info"; "ctx.connect"; "ctx.wait_for_participant"; "logger.info";
        "metrics.UsageCollector"; "RemoteGraph"]%string.
Proof.
  split; [apply quiet_always_returns|]. split; [apply quiet_encodable|].
  split; [reflexivity|].
  exact (entrypoint_missing_vad_raises (lit "You are Kai") None
           (mkJobContext (mkRoom (lit "hall")) (mkJobProcess [])) unit
           (Quiet.answer (mkParticipant (lit "PA_abc123") (lit "bob"))) tt
           (KeyError "vad")
           (quiet_always_returns _) (quiet_encodable _ _) eq_refl).
Defined.

(** ** The observers on whole runs of events *)

Lemma calls_for_each_table {World}
    (answer : forall X, Call X -> World -> outcome X * World)
    {E} (observer : E -> Prog unit) (table : list (str * str)) (state : E -> str) :
  (forall ev, observer ev = match line_for table (state ev) with
                            | Some line => call (print line)
                            | None => Ret tt
                            end) ->
  prints_succeed answer ->
  forall (events : list E) (w : World),
    result answer (for_each observer events) w = Returned tt
    /\ calls answer (for_each observer events) w
       = flat_map (fun ev => match line_for table (state ev) with
                             | Some line => [Called (print line)]
                             | None => []
                             end) events.
Proof.
  intros Ho Hp. unfold result, calls.
  induction events as [|ev events IH]; intros w; [split; reflexivity|].
  cbn [for_each flat_map]. rewrite exec_bind, Ho.
  destruct (line_for table (state ev)) as [line|].
  - rewrite exec_call. destruct (Hp line w) as [w' Ew]. rewrite Ew. cbn [fst snd].
    specialize (IH w').
    destruct (exec answer (for_each observer events) w') as [[r w''] t].
    cbn [fst snd] in *. destruct IH as [-> ->]. split; reflexivity.
  - cbn [exec]. specialize (IH w).
    destruct (exec answer (for_each observer events) w) as [[r w''] t].
    cbn [fst snd] in *. destruct IH as [-> ->]. split; reflexivity.
Qed.

(** X14.  Over any run of events, known and unknown states mixed, each
    observer returns from every event and prints, in the order of the
    events, the line of each event whose state it knows and nothing for
    the others: an unknown state neither stops the run nor changes what is
    printed for the events after it. *)
Theorem observers_on_runs :
  forall (World : Type) (answer : forall X, Call X -> World -> outcome X * World)
         (w : World)
         (user_events : list UserStateChangedEvent)
         (agent_events : list AgentStateChangedEvent),
    prints_succeed answer ->
    (result answer (for_each on_user_state_changed user_events) w = Returned tt
     /\ calls answer (for_each on_user_state_changed user_events) w
        = flat_map (fun ev => match line_for user_lines (user_new_state ev) with
                              | Some line => [Called (print line)]
                              | None => []
                              end) user_events)
    /\ (result answer (for_each on_agent_state_changed agent_events) w = Returned tt
        /\ calls answer (for_each on_agent_state_changed agent_events) w
           = flat_map (fun ev => match line_for agent_lines (agent_new_state ev) with
                                 | Some line => [Called (print line)]
                                 | None => []
                                 end) agent_events).
Proof.
  intros World answer w user_events agent_events Hp. split.
  - exact (calls_for_each_table answer on_user_state_changed user_lines
             user_new_state on_user_state_changed_table Hp user_events w).
  - exact (calls_for_each_table answer on_agent_state_changed agent_lines
             agent_new_state on_agent_state_changed_table Hp agent_events w).
Qed.

(** [observers_on_runs] in the simulated world: the user speaks, an
    unknown state comes in, the user stops and leaves; the agent idles,
    is told an unknown state and speaks. *)
Lemma observers_on_runs_witness :
  prints_succeed Sim.answer
  /\ calls Sim.answer
       (for_each on_user_state_changed
          [mkUserStateChangedEvent (lit "listening") (lit "speaking");
           mkUserStateChangedEvent (lit "speaking") (lit "typing");
           mkUserStateChangedEvent (lit "typing") (lit "listening");
           mkUserStateChangedEvent (lit "listening") (lit "away")])
       Sim.initial
     = [Called (print (lit "User started speaking"));
        Called (print (lit "User stopped speaking"));
        Called (print (lit "User is not present (e.g. disconnected)"))]
  /\ calls Sim.answer
       (for_each on_agent_state_changed
          [mkAgentStateChangedEvent (lit "initializing") (lit "idle");
           mkAgentStateChangedEvent (lit "idle") (lit "dreaming");
           mkAgentStateChangedEvent (lit "dreaming") (lit "speaking")])
       Sim.initial
     = [Called (print (lit "Agent is ready but not processing"));
        Called (print (lit "Agent started speaking"))].
Proof.
  split; [exact sim_prints_succeed|].
  pose proof (observers_on_runs Sim.World Sim.answer Sim.initial
                [mkUserStateChangedEvent (lit "listening") (lit "speaking");
                 mkUserStateChangedEvent (lit "speaking") (lit "typing");
                 mkUserStateChangedEvent (lit "typing") (lit "listening");
                 mkUserStateChangedEvent (lit "listening") (lit "away")]
                [mkAgentStateChangedEvent (lit "initializing") (lit "idle");
                 mkAgentStateChangedEvent (lit "idle") (lit "dreaming");
                 mkAgentStateChangedEvent (lit "dreaming") (lit "speaking")]
                sim_prints_succeed) as [[_ Hu] [_ Ha]].
  split; [exact Hu | exact Ha].
Defined.
